(** * Factor Fund model: a shallow embedding of the calculation engine

    The engine of [factor-fund-python-model-enhanced.py] and the parameter
    intake of [app.py], embedded as functions over rationals.

    Conventions of the embedding.
    - A Python [float] is a rational [Q]; numeric equality is [==].
    - A division between Python floats raises [ZeroDivisionError] on a zero
      divisor and is written [py_div]; a division carried out by numpy or
      pandas never raises and is written with [Q]'s total [/].
    - A raised exception is a value of [result]; statements run in order in
      the [result] monad.
    - A [dict] whose iteration order is visible is an association list in
      insertion order, written through [dict_set].
    - A [DataFrame] under construction is an index of labels with named
      columns of cells, a cell being a number or NaN. [ValueError values
      index] is pandas' length mismatch between a list of values and the
      index. [NaNCell] is not a Python exception: it marks a NaN cell read
      where the embedding continues on rationals, and
      [column_values_complete] shows that no frame that passed the length
      check has one.
    - Where a statement depends on rounding, the code is read on binary64
      floats instead, in module [F64]. *)

From Stdlib Require Import QArith Qround Lqa ZArith Lia List String Bool.
From Stdlib Require Import PrimFloat.
Import ListNotations.

Set Warnings "-inexact-float".

Open Scope Q_scope.

(** ** Numbers *)

Definition Qltb (x y : Q) : bool := negb (Qle_bool y x).

(** Python's [max(a, b)]: the later argument wins only when strictly greater. *)
Definition py_max (a b : Q) : Q := if Qltb a b then b else a.

(** [sum(xs)], [Series.sum()] and the [+=] accumulation of a loop. *)
Definition Qsum (xs : list Q) : Q := fold_left Qplus xs 0.

(** ** Exceptions *)

Inductive exn : Type :=
| ZeroDivisionError
| KeyError (key : string)
| IndexError
| ValueError (values index : nat)
| NaNCell (column : string).

Inductive result (A : Type) : Type :=
| Ok (a : A)
| Raise (e : exn).

Arguments Ok {A} a.
Arguments Raise {A} e.

Definition bind {A B : Type} (r : result A) (k : A -> result B) : result B :=
  match r with
  | Ok a => k a
  | Raise e => Raise e
  end.

Notation "x <- r ;; k" := (bind r (fun x => k))
  (at level 61, r at next level, right associativity).

(** [x / y] on Python floats. *)
Definition py_div (x y : Q) : result Q :=
  if Qeq_bool y 0 then Raise ZeroDivisionError else Ok (x / y).

(** ** Dictionaries in insertion order *)

Fixpoint dict_set {V : Type} (k : string) (v : V) (d : list (string * V))
  : list (string * V) :=
  match d with
  | [] => [(k, v)]
  | (k', v') :: rest =>
      if String.eqb k k' then (k, v) :: rest else (k', v') :: dict_set k v rest
  end.

(** ** Data model *)

(** One entry of [investment_params]; a key that only some categories carry
    is an [option]. *)
Record CategoryParams : Type := {
  count : Q;
  avg_check : option Q;
  pre_money_val : option Q;
  ownership : option Q;
  allocation : Q;
  target_moic : option Q
}.

Record InvestmentParams : Type := {
  seed : CategoryParams;
  shared_safe : CategoryParams;
  series_a : CategoryParams;
  incubation : CategoryParams;
  recycled : CategoryParams
}.

Record OutcomeSpec : Type := {
  probability : Q;
  multiple : Q
}.

Definition Distribution : Type := list (string * OutcomeSpec).

(** The attributes of a [FactorFundModelEnhanced] instance. *)
Record Model : Type := {
  fund_size : Q;
  management_fee_rate : Q;
  carried_interest_rate : Q;
  fund_life : Z;
  investment_period : Z;
  total_management_fees : Q;
  operating_expenses : Q;
  net_investable : Q;
  recycling_amount : Q;
  total_deployable : Q;
  investment_params : InvestmentParams;
  power_law_seed : Distribution;
  power_law_series_a : Distribution
}.

Definition default_investment_params : InvestmentParams := {|
  seed := {| count := 10; avg_check := Some 1.5; pre_money_val := Some 15.0;
             ownership := Some 0.10; allocation := 15.0; target_moic := None |};
  shared_safe := {| count := 6; avg_check := Some 2.0; pre_money_val := Some 10.0;
                    ownership := Some 0.20; allocation := 12.0; target_moic := None |};
  series_a := {| count := 6; avg_check := Some 2.0; pre_money_val := Some 40.0;
                 ownership := Some 0.05; allocation := 12.0; target_moic := None |};
  incubation := {| count := 0; avg_check := None; pre_money_val := None;
                   ownership := None; allocation := 4.0; target_moic := Some 3.0 |};
  recycled := {| count := 3; avg_check := Some 0.67; pre_money_val := None;
                 ownership := None; allocation := 2.0; target_moic := Some 5.0 |}
|}.

Definition default_power_law_seed : Distribution :=
  [ ("home_run"%string, {| probability := 0.10; multiple := 50 |});
    ("winners"%string, {| probability := 0.20; multiple := 10 |});
    ("moderate"%string, {| probability := 0.30; multiple := 3 |});
    ("return_capital"%string, {| probability := 0.20; multiple := 1 |});
    ("write_off"%string, {| probability := 0.20; multiple := 0 |}) ].

Definition default_power_law_series_a : Distribution :=
  [ ("home_run"%string, {| probability := 0.10; multiple := 30 |});
    ("winners"%string, {| probability := 0.20; multiple := 8 |});
    ("moderate"%string, {| probability := 0.30; multiple := 3 |});
    ("return_capital"%string, {| probability := 0.20; multiple := 1 |});
    ("write_off"%string, {| probability := 0.20; multiple := 0 |}) ].

(** [FactorFundModelEnhanced.__init__(fund_size)]. *)
Definition init (fund_size0 : Q) : Model :=
  let management_fee_rate0 := 0.02 in
  let fund_life0 := 10%Z in
  let total_management_fees0 :=
    fund_size0 * management_fee_rate0 * inject_Z fund_life0 in
  let operating_expenses0 := 2.0 in
  let net_investable0 :=
    fund_size0 - total_management_fees0 - operating_expenses0 in
  let recycling_amount0 := 7.0 in
  {| fund_size := fund_size0;
     management_fee_rate := management_fee_rate0;
     carried_interest_rate := 0.20;
     fund_life := fund_life0;
     investment_period := 4%Z;
     total_management_fees := total_management_fees0;
     operating_expenses := operating_expenses0;
     net_investable := net_investable0;
     recycling_amount := recycling_amount0;
     total_deployable := net_investable0 + recycling_amount0;
     investment_params := default_investment_params;
     power_law_seed := default_power_law_seed;
     power_law_series_a := default_power_law_series_a |}.

(** [self.investment_params[key]]. *)
Definition investment_params_get (p : InvestmentParams) (key : string)
  : result CategoryParams :=
  if String.eqb key "seed" then Ok (seed p)
  else if String.eqb key "shared_safe" then Ok (shared_safe p)
  else if String.eqb key "series_a" then Ok (series_a p)
  else if String.eqb key "incubation" then Ok (incubation p)
  else if String.eqb key "recycled" then Ok (recycled p)
  else Raise (KeyError key).

(** [params["target_moic"]]. *)
Definition get_target_moic (p : CategoryParams) : result Q :=
  match target_moic p with
  | Some m => Ok m
  | None => Raise (KeyError "target_moic")
  end.

(** ** Equity returns *)

Module Breakdown.
Record t : Type := {
  companies : Q;
  capital : Q;
  return_ : Q;
  multiple : Q
}.
End Breakdown.

Module EquityReturns.
Record t : Type := {
  total_invested : Q;
  total_return : Q;
  moic : Q;
  breakdown : list (string * Breakdown.t)
}.
End EquityReturns.

(** The body of the loop over [distribution.items()], on the pair
    [(returns_by_outcome, total_return)]. *)
Definition equity_step (count0 total_invested : Q)
    (st : list (string * Breakdown.t) * Q) (item : string * OutcomeSpec)
  : list (string * Breakdown.t) * Q :=
  let '(returns_by_outcome, total_return) := st in
  let '(outcome, specs) := item in
  let companies := count0 * probability specs in
  let capital := total_invested * probability specs in
  let outcome_return := capital * multiple specs in
  (dict_set outcome
     {| Breakdown.companies := companies;
        Breakdown.capital := capital;
        Breakdown.return_ := outcome_return;
        Breakdown.multiple := multiple specs |}
     returns_by_outcome,
   total_return + outcome_return).

(** The outcome buckets the category is priced with. *)
Definition distribution_of (self : Model) (investment_type : string)
  : Distribution :=
  if String.eqb investment_type "seed"
  then power_law_seed self else power_law_series_a self.

Definition calculate_equity_returns (self : Model) (investment_type : string)
  : result EquityReturns.t :=
  params <- investment_params_get (investment_params self) investment_type ;;
  let total_invested := allocation params in
  let count0 := count params in
  let distribution := distribution_of self investment_type in
  let '(returns_by_outcome, total_return) :=
    fold_left (equity_step count0 total_invested) distribution ([], 0) in
  moic <- py_div total_return total_invested ;;
  Ok {| EquityReturns.total_invested := total_invested;
        EquityReturns.total_return := total_return;
        EquityReturns.moic := moic;
        EquityReturns.breakdown := returns_by_outcome |}.

(** ** Equity returns on binary64 floats

    The loop of [calculate_equity_returns] on IEEE 754 binary64 numbers,
    Python's [float], carried by the kernel's primitive floats; every
    operation rounds to nearest as Python's does. An [int] operand ([count],
    [multiple], the initial [total_return = 0]) enters an operation as the
    float of the same value. *)

Module F64.

(** [x / y] on Python floats: a zero divisor of either sign raises. *)
Definition py_div (x y : float) : result float :=
  if PrimFloat.eqb y 0%float then Raise ZeroDivisionError
  else Ok (PrimFloat.div x y).

(** [sum(xs)] and the [+=] accumulation of a loop, from 0. *)
Definition fsum (xs : list float) : float := fold_left PrimFloat.add xs 0%float.

(** The two keys of an [investment_params] entry that the loop reads. *)
Record CategoryParams : Type := {
  count : float;
  allocation : float
}.

Record OutcomeSpec : Type := {
  probability : float;
  multiple : float
}.

Definition Distribution : Type := list (string * OutcomeSpec).

Module Breakdown.
Record t : Type := {
  companies : float;
  capital : float;
  return_ : float;
  multiple : float
}.
End Breakdown.

Module EquityReturns.
Record t : Type := {
  total_invested : float;
  total_return : float;
  moic : float;
  breakdown : list (string * Breakdown.t)
}.
End EquityReturns.

(** [investment_params["series_a"]] and [power_law_series_a] as
    [__init__] writes them. *)
Definition default_series_a : CategoryParams :=
  {| count := 6%float; allocation := 12.0%float |}.

Definition default_power_law_series_a : Distribution :=
  [ ("home_run"%string, {| probability := 0.10%float; multiple := 30%float |});
    ("winners"%string, {| probability := 0.20%float; multiple := 8%float |});
    ("moderate"%string, {| probability := 0.30%float; multiple := 3%float |});
    ("return_capital"%string, {| probability := 0.20%float; multiple := 1%float |});
    ("write_off"%string, {| probability := 0.20%float; multiple := 0%float |}) ].

Definition equity_step (count0 total_invested : float)
    (st : list (string * Breakdown.t) * float) (item : string * OutcomeSpec)
  : list (string * Breakdown.t) * float :=
  let '(returns_by_outcome, total_return) := st in
  let '(outcome, specs) := item in
  let companies := PrimFloat.mul count0 (probability specs) in
  let capital := PrimFloat.mul total_invested (probability specs) in
  let outcome_return := PrimFloat.mul capital (multiple specs) in
  (dict_set outcome
     {| Breakdown.companies := companies;
        Breakdown.capital := capital;
        Breakdown.return_ := outcome_return;
        Breakdown.multiple := multiple specs |}
     returns_by_outcome,
   PrimFloat.add total_return outcome_return).

(** [calculate_equity_returns] once [params] and [distribution] have been
    looked up. *)
Definition calculate_equity_returns (params : CategoryParams)
    (distribution : Distribution) : result EquityReturns.t :=
  let total_invested := allocation params in
  let count0 := count params in
  let '(returns_by_outcome, total_return) :=
    fold_left (equity_step count0 total_invested) distribution ([], 0%float) in
  moic <- py_div total_return total_invested ;;
  Ok {| EquityReturns.total_invested := total_invested;
        EquityReturns.total_return := total_return;
        EquityReturns.moic := moic;
        EquityReturns.breakdown := returns_by_outcome |}.

Definition probability_mass (d : Distribution) : float :=
  fsum (map (fun item => probability (snd item)) d).

Definition breakdown_capital (b : list (string * Breakdown.t)) : float :=
  fsum (map (fun item => Breakdown.capital (snd item)) b).

End F64.

(** ** Revenue-share returns *)

Module RsSchedule.
Record t : Type := {
  year_1_2 : Q;
  year_3_4 : Q;
  year_5 : Q;
  year_7_10 : Q
}.
End RsSchedule.

Module RevenueShare.
Record t : Type := {
  total_invested : Q;
  revenue_share_return : Q;
  equity_return : Q;
  total_return : Q;
  moic : Q;
  cash_flow_schedule : RsSchedule.t
}.
End RevenueShare.

Definition calculate_revenue_share_returns (self : Model)
  : result RevenueShare.t :=
  let params := shared_safe (investment_params self) in
  let total_invested := allocation params in
  let revenue_share_return := total_invested * 2.5 in
  let equity_portion := total_invested * 0.40 in
  let equity_return := equity_portion * 1.5 in
  let total_return := revenue_share_return + equity_return in
  let cash_flows :=
    {| RsSchedule.year_1_2 := revenue_share_return * 0.20;
       RsSchedule.year_3_4 := revenue_share_return * 0.40;
       RsSchedule.year_5 := revenue_share_return * 0.40;
       RsSchedule.year_7_10 := equity_return |} in
  moic <- py_div total_return total_invested ;;
  Ok {| RevenueShare.total_invested := total_invested;
        RevenueShare.revenue_share_return := revenue_share_return;
        RevenueShare.equity_return := equity_return;
        RevenueShare.total_return := total_return;
        RevenueShare.moic := moic;
        RevenueShare.cash_flow_schedule := cash_flows |}.

(** ** Portfolio returns *)

Module PortfolioRow.
Record t : Type := {
  Category : string;
  Invested : Q;
  Gross_Return : Q;
  MOIC : Q;
  Pct_of_Portfolio : Q
}.
End PortfolioRow.

(** A [DataFrame] of portfolio rows, in index order; every row carries the
    five columns. *)
Definition PortfolioTable : Type := list PortfolioRow.t.

Definition categories : list (string * string * option string) :=
  [ ("Seed", "seed", None);
    ("Shared SAFE", "shared_safe", Some "revenue_share");
    ("Series A", "series_a", None);
    ("Incubation", "incubation", Some "fixed");
    ("Recycled", "recycled", Some "fixed") ]%string.

Definition calc_type_is (calc_type : option string) (s : string) : bool :=
  match calc_type with
  | Some c => String.eqb c s
  | None => false
  end.

(** One pass of the loop over [categories]: the row appended to [results]. *)
Definition category_row (self : Model) (cat : string * string * option string)
  : result PortfolioRow.t :=
  let '(cat_name, cat_key, calc_type) := cat in
  if calc_type_is calc_type "revenue_share" then
    returns <- calculate_revenue_share_returns self ;;
    pct <- py_div (RevenueShare.total_invested returns) (total_deployable self) ;;
    Ok {| PortfolioRow.Category := cat_name;
          PortfolioRow.Invested := RevenueShare.total_invested returns;
          PortfolioRow.Gross_Return := RevenueShare.total_return returns;
          PortfolioRow.MOIC := RevenueShare.moic returns;
          PortfolioRow.Pct_of_Portfolio := pct * 100 |}
  else if calc_type_is calc_type "fixed" then
    params <- investment_params_get (investment_params self) cat_key ;;
    moic <- get_target_moic params ;;
    pct <- py_div (allocation params) (total_deployable self) ;;
    Ok {| PortfolioRow.Category := cat_name;
          PortfolioRow.Invested := allocation params;
          PortfolioRow.Gross_Return := allocation params * moic;
          PortfolioRow.MOIC := moic;
          PortfolioRow.Pct_of_Portfolio := pct * 100 |}
  else
    returns <- calculate_equity_returns self cat_key ;;
    pct <- py_div (EquityReturns.total_invested returns) (total_deployable self) ;;
    Ok {| PortfolioRow.Category := cat_name;
          PortfolioRow.Invested := EquityReturns.total_invested returns;
          PortfolioRow.Gross_Return := EquityReturns.total_return returns;
          PortfolioRow.MOIC := EquityReturns.moic returns;
          PortfolioRow.Pct_of_Portfolio := pct * 100 |}.

(** A loop that appends one result per element and stops at the first
    exception. *)
Fixpoint for_each {A B : Type} (f : A -> result B) (xs : list A)
  : result (list B) :=
  match xs with
  | [] => Ok []
  | x :: rest =>
      y <- f x ;;
      ys <- for_each f rest ;;
      Ok (y :: ys)
  end.

Definition total_row (df : PortfolioTable) : PortfolioRow.t :=
  let invested := Qsum (map PortfolioRow.Invested df) in
  let gross_return := Qsum (map PortfolioRow.Gross_Return df) + 5.0 in
  {| PortfolioRow.Category := "Total Portfolio";
     PortfolioRow.Invested := invested;
     PortfolioRow.Gross_Return := gross_return;
     PortfolioRow.MOIC := gross_return / invested;
     PortfolioRow.Pct_of_Portfolio := 100.0 |}.

Definition calculate_portfolio_returns (self : Model) : result PortfolioTable :=
  df <- for_each (category_row self) categories ;;
  Ok (df ++ [total_row df]).

(** ** A frame of cells *)

(** A cell holds a number, or [None] for NaN. *)
Definition cell : Type := option Q.

Record DataFrame : Type := {
  index : list nat;
  columns : list (string * list cell)
}.

Fixpoint position (label : nat) (idx : list nat) : option nat :=
  match idx with
  | [] => None
  | l :: rest =>
      if Nat.eqb l label then Some O else option_map S (position label rest)
  end.

Fixpoint set_nth {A : Type} (p : nat) (v : A) (xs : list A) : list A :=
  match xs, p with
  | [], _ => []
  | _ :: rest, O => v :: rest
  | x :: rest, S p' => x :: set_nth p' v rest
  end.

Fixpoint map2 {A B C : Type} (f : A -> B -> C) (xs : list A) (ys : list B)
  : list C :=
  match xs, ys with
  | x :: xs', y :: ys' => f x y :: map2 f xs' ys'
  | _, _ => []
  end.

Definition on_column (col : string) (f : list cell -> list cell)
    (other : list cell -> list cell) (cols : list (string * list cell))
  : list (string * list cell) :=
  map (fun c => if String.eqb (fst c) col then (fst c, f (snd c))
                else (fst c, other (snd c))) cols.

(** [df.loc[label, col] = v]. A label missing from the index enlarges the
    frame: a row is appended under that label, NaN in every other column. *)
Definition loc_set (label : nat) (col : string) (v : Q) (df : DataFrame)
  : DataFrame :=
  match position label (index df) with
  | Some p =>
      {| index := index df;
         columns := on_column col (set_nth p (Some v)) (fun xs => xs) (columns df) |}
  | None =>
      {| index := index df ++ [label];
         columns := on_column col (fun xs => xs ++ [Some v])
                      (fun xs => xs ++ [None]) (columns df) |}
  end.

(** [df.loc[lo:hi, col] = v]: a slice of labels, both ends included; labels
    outside the index are ignored. *)
Definition loc_slice_set (lo hi : nat) (col : string) (v : Q) (df : DataFrame)
  : DataFrame :=
  {| index := index df;
     columns :=
       on_column col
         (map2 (fun l x => if Nat.leb lo l && Nat.leb l hi then Some v else x)
               (index df))
         (fun xs => xs) (columns df) |}.

(** [df[col] = values] for a list: one value per index label is required. *)
Definition set_column (col : string) (values : list Q) (df : DataFrame)
  : result DataFrame :=
  if Nat.eqb (List.length values) (List.length (index df))
  then Ok {| index := index df;
             columns := dict_set col (map Some values) (columns df) |}
  else Raise (ValueError (List.length values) (List.length (index df))).

Fixpoint all_numbers (xs : list cell) : option (list Q) :=
  match xs with
  | [] => Some []
  | Some q :: rest => option_map (cons q) (all_numbers rest)
  | None :: _ => None
  end.

Fixpoint dict_get {V : Type} (k : string) (d : list (string * V)) : option V :=
  match d with
  | [] => None
  | (k', v) :: rest => if String.eqb k k' then Some v else dict_get k rest
  end.

(** [df[col]], read as numbers. *)
Definition column_values (col : string) (df : DataFrame) : result (list Q) :=
  match dict_get col (columns df) with
  | None => Raise (KeyError col)
  | Some xs =>
      match all_numbers xs with
      | Some qs => Ok qs
      | None => Raise (NaNCell col)
      end
  end.

(** ** Cash flows *)

Module CashFlows.
Record t : Type := {
  Year : list Q;
  Capital_Calls : list Q;
  Revenue_Share : list Q;
  Equity_Exits : list Q;
  Total_Distribution : list Q;
  Net_Cash_Flow : list Q;
  Cumulative_Distribution : list Q;
  DPI : list Q;
  Gross_Profit : list Q;
  Carry_Due : list Q;
  Net_to_LPs : list Q
}.
End CashFlows.

Fixpoint cumsum_from (acc : Q) (xs : list Q) : list Q :=
  match xs with
  | [] => []
  | x :: rest => (acc + x) :: cumsum_from (acc + x) rest
  end.

(** [Series.cumsum()]. *)
Definition cumsum (xs : list Q) : list Q :=
  match xs with
  | [] => []
  | x :: rest => x :: cumsum_from x rest
  end.

(** [Series.shift(1).fillna(0)]. *)
Definition shift_fillna0 (xs : list Q) : list Q :=
  firstn (List.length xs) (0 :: xs).

Definition equity_exits : list Q := [0; 0; 3; 8; 12; 20; 32; 40; 32; 75.5].

(** The columns computed from the three input columns ("Calculate totals
    and metrics" and "Calculate net to LPs"). *)
Definition derive_metrics (fund_size0 : Q) (year capital_calls revenue_share ee : list Q)
  : CashFlows.t :=
  let total_distribution := map2 Qplus revenue_share ee in
  let net_cash_flow := map2 Qplus capital_calls total_distribution in
  let cumulative_distribution := cumsum total_distribution in
  let dpi := map (fun x => x / fund_size0) cumulative_distribution in
  let gross_profit := map (fun x => x - fund_size0) cumulative_distribution in
  let carry_due := map (fun x => py_max 0 (x * 0.20)) gross_profit in
  let net_to_lps :=
    map2 Qminus total_distribution
         (map2 Qminus carry_due (shift_fillna0 carry_due)) in
  {| CashFlows.Year := year;
     CashFlows.Capital_Calls := capital_calls;
     CashFlows.Revenue_Share := revenue_share;
     CashFlows.Equity_Exits := ee;
     CashFlows.Total_Distribution := total_distribution;
     CashFlows.Net_Cash_Flow := net_cash_flow;
     CashFlows.Cumulative_Distribution := cumulative_distribution;
     CashFlows.DPI := dpi;
     CashFlows.Gross_Profit := gross_profit;
     CashFlows.Carry_Due := carry_due;
     CashFlows.Net_to_LPs := net_to_lps |}.

(** The frame as first built, [fund_life] rows of zeros under the labels
    [0 .. fund_life - 1]. *)
Definition initial_frame (n : nat) : DataFrame :=
  {| index := seq 0 n;
     columns :=
       [ ("Year"%string, map (fun y => Some (inject_Z (Z.of_nat y))) (seq 1 n));
         ("Capital Calls"%string, repeat (Some 0.0) n);
         ("Revenue Share"%string, repeat (Some 0.0) n);
         ("Equity Exits"%string, repeat (Some 0.0) n);
         ("Total Distribution"%string, repeat (Some 0.0) n) ] |}.

(** The statements of [calculate_cash_flows] that write into the frame,
    given the revenue-share schedule. *)
Definition fill_frame (self : Model) (rs_schedule : RsSchedule.t)
  : result DataFrame :=
  let cash_flows := initial_frame (Z.to_nat (fund_life self)) in
  let cash_flows :=
    loc_slice_set 0 3 "Capital Calls" (- fund_size self / 4) cash_flows in
  let cash_flows :=
    loc_set 0 "Revenue Share" (RsSchedule.year_1_2 rs_schedule * 0.4) cash_flows in
  let cash_flows :=
    loc_set 1 "Revenue Share" (RsSchedule.year_1_2 rs_schedule * 0.6) cash_flows in
  let cash_flows :=
    loc_set 2 "Revenue Share" (RsSchedule.year_3_4 rs_schedule * 0.4) cash_flows in
  let cash_flows :=
    loc_set 3 "Revenue Share" (RsSchedule.year_3_4 rs_schedule * 0.6) cash_flows in
  let cash_flows :=
    loc_set 4 "Revenue Share" (RsSchedule.year_5 rs_schedule) cash_flows in
  let cash_flows := loc_slice_set 5 8 "Revenue Share" 1.8 cash_flows in
  set_column "Equity Exits" equity_exits cash_flows.

Definition calculate_cash_flows (self : Model) : result CashFlows.t :=
  safe_returns <- calculate_revenue_share_returns self ;;
  let rs_schedule := RevenueShare.cash_flow_schedule safe_returns in
  cash_flows <- fill_frame self rs_schedule ;;
  year <- column_values "Year" cash_flows ;;
  capital_calls <- column_values "Capital Calls" cash_flows ;;
  revenue_share <- column_values "Revenue Share" cash_flows ;;
  ee <- column_values "Equity Exits" cash_flows ;;
  Ok (derive_metrics (fund_size self) year capital_calls revenue_share ee).

(** ** LP returns and sensitivity *)

Module LPReturns.
Record t : Type := {
  gross_returns : Q;
  gross_moic : Q;
  gross_profit : Q;
  carry : Q;
  net_profit_to_lps : Q;
  total_lp_distribution : Q;
  net_moic : Q;
  net_irr : cell;
  management_fees : Q;
  operating_expenses : Q
}.
End LPReturns.

Module Scenario.
Record t : Type := {
  Scenario : string;
  Gross_Returns : Q;
  Gross_MOIC : Q;
  Net_MOIC : Q;
  Net_IRR_pct : cell
}.
End Scenario.

Definition SensitivityTable : Type := list Scenario.t.

(** [portfolio_returns.loc[portfolio_returns["Category"] == "Total Portfolio",
    "Gross Return"].values[0]]. *)
Definition total_portfolio_gross_return (portfolio_returns : PortfolioTable)
  : result Q :=
  match filter (fun r => String.eqb (PortfolioRow.Category r) "Total Portfolio")
               portfolio_returns with
  | [] => Raise IndexError
  | r :: _ => Ok (PortfolioRow.Gross_Return r)
  end.

(** [series.iloc[-1]]. *)
Definition iloc_last (xs : list Q) : result Q :=
  match xs with
  | [] => Raise IndexError
  | _ => Ok (last xs 0)
  end.

(** The series handed to the IRR routine: [lp_cash_flows[:-1]] followed by
    [sum(cash_flows["Net to LPs"])], where [lp_cash_flows] is the capital
    calls followed by the last net-to-LPs value. *)
Definition lp_cash_flow_series (cash_flows : CashFlows.t) : result (list Q) :=
  last_net <- iloc_last (CashFlows.Net_to_LPs cash_flows) ;;
  let lp_cash_flows := CashFlows.Capital_Calls cash_flows ++ [last_net] in
  Ok (removelast lp_cash_flows ++ [Qsum (CashFlows.Net_to_LPs cash_flows)]).

Definition scenarios : list (string * Q) :=
  [ ("Downside (-30%)"%string, 0.7);
    ("Base Case"%string, 1.0);
    ("Upside (+30%)"%string, 1.3) ].

Section Engine.

(** The two numerical routines the engine takes from outside the repository.
    [npf_irr] is [numpy_financial.irr]: it returns a rate, returns NaN, or
    raises. [pow] is the float power [x ** y], NaN when it has no real
    value. *)
Variable npf_irr : list Q -> result cell.
Variable pow : Q -> Q -> cell.

Definition calculate_lp_returns (self : Model) (portfolio_returns : PortfolioTable)
  : result LPReturns.t :=
  gross_returns <- total_portfolio_gross_return portfolio_returns ;;
  let gross_profit := gross_returns - fund_size self in
  let carry :=
    if Qltb 0 gross_profit then gross_profit * carried_interest_rate self else 0 in
  let net_profit_to_lps := gross_profit - carry in
  let total_lp_distribution := fund_size self + net_profit_to_lps in
  cash_flows <- calculate_cash_flows self ;;
  series <- lp_cash_flow_series cash_flows ;;
  let irr :=
    match npf_irr series with
    | Ok r => r
    | Raise _ => Some 0.185
    end in
  Ok {| LPReturns.gross_returns := gross_returns;
        LPReturns.gross_moic := gross_returns / fund_size self;
        LPReturns.gross_profit := gross_profit;
        LPReturns.carry := carry;
        LPReturns.net_profit_to_lps := net_profit_to_lps;
        LPReturns.total_lp_distribution := total_lp_distribution;
        LPReturns.net_moic := total_lp_distribution / fund_size self;
        LPReturns.net_irr := irr;
        LPReturns.management_fees := total_management_fees self;
        LPReturns.operating_expenses := operating_expenses self |}.

(** One pass of the loop over the scenarios. *)
Definition scenario_row (self : Model) (base_case : LPReturns.t)
    (scenario : string * Q) : Scenario.t :=
  let '(scenario_name, multiplier) := scenario in
  let gross := LPReturns.gross_returns base_case * multiplier in
  let profit := gross - fund_size self in
  let carry :=
    if Qltb 0 profit then profit * carried_interest_rate self else 0 in
  let net := fund_size self + profit - carry in
  let moic := net / fund_size self in
  let irr_estimate := option_map (fun p => (p - 1) * 100) (pow moic (1 / 10)) in
  {| Scenario.Scenario := scenario_name;
     Scenario.Gross_Returns := gross;
     Scenario.Gross_MOIC := gross / fund_size self;
     Scenario.Net_MOIC := moic;
     Scenario.Net_IRR_pct := irr_estimate |}.

Definition sensitivity_analysis (self : Model) (portfolio_returns : PortfolioTable)
  : result SensitivityTable :=
  base_case <- calculate_lp_returns self portfolio_returns ;;
  Ok (map (scenario_row self base_case) scenarios).

End Engine.

(** ** Reference instances of the outside routines

    The theorems below hold for every [npf_irr] and every [pow]. The two
    functions here give them a value where an example has to be evaluated. *)

Fixpoint iroot_search (fuel : nat) (n : positive) (a lo hi : Z) : Z :=
  match fuel with
  | O => lo
  | S fuel' =>
      if (hi - lo <=? 1)%Z then lo
      else
        let mid := ((lo + hi) / 2)%Z in
        if (Z.pow_pos mid n <=? a)%Z
        then iroot_search fuel' n a mid hi
        else iroot_search fuel' n a lo mid
  end.

(** The integer part of the [n]-th root of [a >= 0], searched below a power
    of two whose [n]-th power exceeds [a]. *)
Definition iroot (n : positive) (a : Z) : Z :=
  let bits := (Z.log2_up (a + 1) / Zpos n + 1)%Z in
  iroot_search (S (Z.to_nat bits)) n a 0 (Z.shiftl 1 bits).

(** [x ^ (p/q)] for [x >= 0], cut after twelve decimals. *)
Definition root_power (x : Q) (p q : positive) : Q :=
  let scale := Z.pow_pos 10 12 in
  let a := Qfloor (Qpower_positive x p * inject_Z (Z.pow_pos scale q)) in
  Qred (iroot q a # Pos.pow 10 12).

(** [x ** y] on floats: exact for an integer exponent; for a fractional
    exponent NaN on a negative base, as numpy gives, and otherwise the root
    cut after twelve decimals. *)
Definition pow_reference (x y : Q) : cell :=
  let y' := Qred y in
  match Qden y' with
  | xH => Some (Qpower x (Qnum y'))
  | q =>
      if Qltb x 0 then None
      else
        match Qnum y' with
        | Zpos p => Some (root_power x p q)
        | Zneg p => Some (/ root_power x p q)
        | Z0 => Some 1
        end
  end.

(** The net present value of a series at a rate: the sum of
    [values[i] / (1 + rate) ^ i], accumulated from the last term. *)
Fixpoint npv (rate : Q) (values : list Q) : Q :=
  match values with
  | [] => 0
  | v :: rest => Qred (v + npv rate rest / (1 + rate))
  end.

Fixpoint bisect (fuel : nat) (f : Q -> Q) (lo hi : Q) : Q :=
  match fuel with
  | O => Qred ((lo + hi) / 2)
  | S fuel' =>
      let mid := Qred ((lo + hi) / 2) in
      if Qltb 0 (f lo * f mid) then bisect fuel' f mid hi
      else bisect fuel' f lo mid
  end.

(** An internal rate of return in the way [numpy_financial.irr] reports it:
    NaN for a series whose entries have one sign, where no rate solves;
    otherwise a root of the net present value, here by bisection on
    [-0.99, 10]. It never raises. *)
Definition irr_reference (values : list Q) : result cell :=
  if forallb (Qle_bool 0) values || forallb (fun v => Qle_bool v 0) values
  then Ok None
  else
    let f := fun rate => npv rate values in
    if Qltb 0 (f (-0.99) * f 10) then Ok None
    else Ok (Some (bisect 40 f (-0.99) 10)).

(** An [npf_irr] that raises on every series. *)
Definition irr_raising (values : list Q) : result cell := Raise (ValueError 0 0).

(** ** Parameter intake ([app.py], [run_model]) *)

Module ParamsUpdate.
Record t : Type := {
  count : option Q;
  avg_check : option Q;
  pre_money_val : option Q;
  ownership : option Q;
  allocation : option Q;
  target_moic : option Q
}.
End ParamsUpdate.

Module Request.
Record t : Type := {
  fund_size : option Q;
  management_fee_rate : option Q;
  carried_interest_rate : option Q;
  fund_life : option Z;
  investment_period : option Z;
  investment_params : option (list (string * ParamsUpdate.t))
}.
End Request.

Definition or_else {A : Type} (o : option A) (d : A) : A :=
  match o with
  | Some a => a
  | None => d
  end.

Definition or_keep {A : Type} (o old : option A) : option A :=
  match o with
  | Some a => Some a
  | None => old
  end.

(** [model.investment_params[category].update(params)]: the keys named in
    [params] are overwritten, the others kept. *)
Definition update_params (u : ParamsUpdate.t) (p : CategoryParams)
  : CategoryParams :=
  {| count := or_else (ParamsUpdate.count u) (count p);
     avg_check := or_keep (ParamsUpdate.avg_check u) (avg_check p);
     pre_money_val := or_keep (ParamsUpdate.pre_money_val u) (pre_money_val p);
     ownership := or_keep (ParamsUpdate.ownership u) (ownership p);
     allocation := or_else (ParamsUpdate.allocation u) (allocation p);
     target_moic := or_keep (ParamsUpdate.target_moic u) (target_moic p) |}.

(** One pass of the loop over [data['investment_params'].items()]; a
    category the model does not have is skipped. *)
Definition update_category (ip : InvestmentParams)
    (item : string * ParamsUpdate.t) : InvestmentParams :=
  let '(category, params) := item in
  if String.eqb category "seed" then
    {| seed := update_params params (seed ip); shared_safe := shared_safe ip;
       series_a := series_a ip; incubation := incubation ip;
       recycled := recycled ip |}
  else if String.eqb category "shared_safe" then
    {| seed := seed ip; shared_safe := update_params params (shared_safe ip);
       series_a := series_a ip; incubation := incubation ip;
       recycled := recycled ip |}
  else if String.eqb category "series_a" then
    {| seed := seed ip; shared_safe := shared_safe ip;
       series_a := update_params params (series_a ip);
       incubation := incubation ip; recycled := recycled ip |}
  else if String.eqb category "incubation" then
    {| seed := seed ip; shared_safe := shared_safe ip; series_a := series_a ip;
       incubation := update_params params (incubation ip);
       recycled := recycled ip |}
  else if String.eqb category "recycled" then
    {| seed := seed ip; shared_safe := shared_safe ip; series_a := series_a ip;
       incubation := incubation ip;
       recycled := update_params params (recycled ip) |}
  else ip.

(** [run_model] from the request to the recomputed derived values: the
    model every calculation then runs on. Nothing in it can refuse a value. *)
Definition configure (data : Request.t) : Model :=
  let fund_size0 := or_else (Request.fund_size data) 50.0 in
  let model := init fund_size0 in
  let management_fee_rate0 :=
    or_else (Request.management_fee_rate data) (management_fee_rate model) in
  let carried_interest_rate0 :=
    or_else (Request.carried_interest_rate data) (carried_interest_rate model) in
  let fund_life0 := or_else (Request.fund_life data) (fund_life model) in
  let investment_period0 :=
    or_else (Request.investment_period data) (investment_period model) in
  let investment_params0 :=
    fold_left update_category (or_else (Request.investment_params data) [])
              (investment_params model) in
  let total_management_fees0 :=
    fund_size0 * management_fee_rate0 * inject_Z fund_life0 in
  let net_investable0 :=
    fund_size0 - total_management_fees0 - operating_expenses model in
  {| fund_size := fund_size0;
     management_fee_rate := management_fee_rate0;
     carried_interest_rate := carried_interest_rate0;
     fund_life := fund_life0;
     investment_period := investment_period0;
     total_management_fees := total_management_fees0;
     operating_expenses := operating_expenses model;
     net_investable := net_investable0;
     recycling_amount := recycling_amount model;
     total_deployable := net_investable0 + recycling_amount model;
     investment_params := investment_params0;
     power_law_seed := power_law_seed model;
     power_law_series_a := power_law_series_a model |}.

Module Response.
Record t : Type := {
  model : Model;
  portfolio_returns : PortfolioTable;
  lp_returns : LPReturns.t;
  cash_flows : CashFlows.t;
  sensitivity_analysis : SensitivityTable
}.
End Response.

(** What [run_model] answers: the results, or status 400 with the text of
    the exception that the [try] caught. *)
Inductive HttpResponse : Type :=
| Http200 (body : Response.t)
| Http400 (error : exn).

(** The four calculations of [run_model], in its order. Drawing the figure
    and serialising the answer lie outside the engine and are left out. *)
Definition run_calculations (npf_irr : list Q -> result cell)
    (pow : Q -> Q -> cell) (model : Model) : result Response.t :=
  portfolio_returns <- calculate_portfolio_returns model ;;
  lp_returns <- calculate_lp_returns npf_irr model portfolio_returns ;;
  cash_flows <- calculate_cash_flows model ;;
  sensitivity <- sensitivity_analysis npf_irr pow model portfolio_returns ;;
  Ok {| Response.model := model;
        Response.portfolio_returns := portfolio_returns;
        Response.lp_returns := lp_returns;
        Response.cash_flows := cash_flows;
        Response.sensitivity_analysis := sensitivity |}.

Definition run_model (npf_irr : list Q -> result cell) (pow : Q -> Q -> cell)
    (data : Request.t) : HttpResponse :=
  match run_calculations npf_irr pow (configure data) with
  | Ok body => Http200 body
  | Raise e => Http400 e
  end.

(** ** Vocabulary of the statements *)

(** Equality of cells: two numbers that are equal, or two NaN. *)
Definition cell_eq (a b : cell) : Prop :=
  match a, b with
  | Some x, Some y => x == y
  | None, None => True
  | _, _ => False
  end.

(** Consecutive entries never decrease. *)
Definition non_decreasing (xs : list Q) : Prop :=
  forall t a b, nth_error xs t = Some a -> nth_error xs (S t) = Some b -> a <= b.

(** The "Total Portfolio" row that [calculate_lp_returns] reads. *)
Definition total_portfolio_row (table : PortfolioTable) : option PortfolioRow.t :=
  hd_error (filter (fun r => String.eqb (PortfolioRow.Category r) "Total Portfolio")
                   table).

(** Two LP results that agree field by field. *)
Definition lp_equiv (a b : LPReturns.t) : Prop :=
  LPReturns.gross_returns a == LPReturns.gross_returns b /\
  LPReturns.gross_moic a == LPReturns.gross_moic b /\
  LPReturns.gross_profit a == LPReturns.gross_profit b /\
  LPReturns.carry a == LPReturns.carry b /\
  LPReturns.net_profit_to_lps a == LPReturns.net_profit_to_lps b /\
  LPReturns.total_lp_distribution a == LPReturns.total_lp_distribution b /\
  LPReturns.net_moic a == LPReturns.net_moic b /\
  LPReturns.net_irr a = LPReturns.net_irr b /\
  LPReturns.management_fees a == LPReturns.management_fees b /\
  LPReturns.operating_expenses a == LPReturns.operating_expenses b.

Definition lp_result_equiv (a b : result LPReturns.t) : Prop :=
  match a, b with
  | Ok x, Ok y => lp_equiv x y
  | Raise e, Raise e' => e = e'
  | _, _ => False
  end.

(** The expected return of a category over its buckets:
    the sum of allocation * probability * multiple. *)
Definition expected_return (alloc : Q) (d : Distribution) : Q :=
  Qsum (map (fun item => alloc * probability (snd item) * multiple (snd item)) d).

Definition probability_mass (d : Distribution) : Q :=
  Qsum (map (fun item => probability (snd item)) d).

(** The breakdown entry of one bucket. *)
Definition bucket_row (count0 total_invested : Q) (specs : OutcomeSpec)
  : Breakdown.t :=
  {| Breakdown.companies := count0 * probability specs;
     Breakdown.capital := total_invested * probability specs;
     Breakdown.return_ := total_invested * probability specs * multiple specs;
     Breakdown.multiple := multiple specs |}.

(** The two written columns of a ten-year frame. *)
Definition capital_calls_10 (fund_size0 : Q) : list Q :=
  [ - fund_size0 / 4; - fund_size0 / 4; - fund_size0 / 4; - fund_size0 / 4;
    0.0; 0.0; 0.0; 0.0; 0.0; 0.0 ].

Definition revenue_share_10 (rs : RsSchedule.t) : list Q :=
  [ RsSchedule.year_1_2 rs * 0.4; RsSchedule.year_1_2 rs * 0.6;
    RsSchedule.year_3_4 rs * 0.4; RsSchedule.year_3_4 rs * 0.6;
    RsSchedule.year_5 rs; 1.8; 1.8; 1.8; 1.8; 0.0 ].

Definition years_10 : list Q := [1; 2; 3; 4; 5; 6; 7; 8; 9; 10].

(** The estimate a scenario row would carry if it were the plain rate
    net_moic ^ (1 / fund_life) - 1. *)
Definition plain_rate_estimate (pow : Q -> Q -> cell) (self : Model)
    (row : Scenario.t) : cell :=
  option_map (fun p => p - 1)
             (pow (Scenario.Net_MOIC row) (1 / inject_Z (fund_life self))).

(** A table that holds nothing but a total row. *)
Definition lone_total_table : PortfolioTable :=
  [ {| PortfolioRow.Category := "Total Portfolio";
       PortfolioRow.Invested := 1;
       PortfolioRow.Gross_Return := 254.1;
       PortfolioRow.MOIC := 0;
       PortfolioRow.Pct_of_Portfolio := 0 |} ].

(** Requests used as examples. *)
Definition empty_request : Request.t :=
  {| Request.fund_size := None;
     Request.management_fee_rate := None;
     Request.carried_interest_rate := None;
     Request.fund_life := None;
     Request.investment_period := None;
     Request.investment_params := None |}.

(** The default model with [carried_interest_rate] set to 0.0. *)
Definition request_zero_carry : Request.t :=
  {| Request.fund_size := None;
     Request.management_fee_rate := None;
     Request.carried_interest_rate := Some 0.0;
     Request.fund_life := None;
     Request.investment_period := None;
     Request.investment_params := None |}.

Definition request_negative_fund : Request.t :=
  {| Request.fund_size := Some (-50.0);
     Request.management_fee_rate := None;
     Request.carried_interest_rate := None;
     Request.fund_life := None;
     Request.investment_period := None;
     Request.investment_params := None |}.

Definition request_short_life : Request.t :=
  {| Request.fund_size := None;
     Request.management_fee_rate := None;
     Request.carried_interest_rate := None;
     Request.fund_life := Some 3%Z;
     Request.investment_period := None;
     Request.investment_params := None |}.

(** The default model with the [shared_safe] allocation set to 0. *)
Definition request_zero_safe : Request.t :=
  {| Request.fund_size := None;
     Request.management_fee_rate := None;
     Request.carried_interest_rate := None;
     Request.fund_life := None;
     Request.investment_period := None;
     Request.investment_params :=
       Some [ ("shared_safe"%string,
               {| ParamsUpdate.count := None;
                  ParamsUpdate.avg_check := None;
                  ParamsUpdate.pre_money_val := None;
                  ParamsUpdate.ownership := None;
                  ParamsUpdate.allocation := Some 0;
                  ParamsUpdate.target_moic := None |}) ] |}.

(** ** Further vocabulary *)

(** The keys of [investment_params]. *)
Definition category_names : list string :=
  [ "seed"; "shared_safe"; "series_a"; "incubation"; "recycled" ]%string.

(** [portfolio[portfolio["Category"] != "Total Portfolio"]], the rows that
    [create_visualizations] draws in the allocation and MOIC charts. *)
Definition portfolio_data (portfolio : PortfolioTable) : PortfolioTable :=
  filter (fun r => negb (String.eqb (PortfolioRow.Category r) "Total Portfolio"))
         portfolio.

(** A request that sets the fund size and nothing else. *)
Definition fund_size_request (fs : Q) : Request.t :=
  {| Request.fund_size := Some fs;
     Request.management_fee_rate := None;
     Request.carried_interest_rate := None;
     Request.fund_life := None;
     Request.investment_period := None;
     Request.investment_params := None |}.

(** A request that overrides the allocation of one category. *)
Definition allocation_update (a : Q) : ParamsUpdate.t :=
  {| ParamsUpdate.count := None;
     ParamsUpdate.avg_check := None;
     ParamsUpdate.pre_money_val := None;
     ParamsUpdate.ownership := None;
     ParamsUpdate.allocation := Some a;
     ParamsUpdate.target_moic := None |}.

Definition allocation_request (updates : list (string * ParamsUpdate.t))
  : Request.t :=
  {| Request.fund_size := None;
     Request.management_fee_rate := None;
     Request.carried_interest_rate := None;
     Request.fund_life := None;
     Request.investment_period := None;
     Request.investment_params := Some updates |}.

(** The default model with the [shared_safe] allocation set to -12. *)
Definition request_negative_safe : Request.t :=
  allocation_request [ ("shared_safe"%string, allocation_update (-12)) ].

(** * Properties *)

(** ** Arithmetic helpers *)

Lemma Qltb_lt (x y : Q) : Qltb x y = true <-> x < y.
Proof.
  unfold Qltb. rewrite negb_true_iff.
  split; intro H.
  - apply Qnot_le_lt. intro Hle. apply Qle_bool_iff in Hle. congruence.
  - destruct (Qle_bool y x) eqn:E; [|reflexivity].
    apply Qle_bool_iff in E. exfalso. apply (Qlt_not_le _ _ H E).
Qed.

Lemma Qltb_ge (x y : Q) : Qltb x y = false <-> y <= x.
Proof.
  unfold Qltb. rewrite negb_false_iff. apply Qle_bool_iff.
Qed.

Lemma Qltb_comp (x x' y y' : Q) : x == x' -> y == y' -> Qltb x y = Qltb x' y'.
Proof.
  intros Hx Hy. unfold Qltb. now rewrite Hx, Hy.
Qed.

Lemma py_max_0_nonneg (v : Q) : 0 <= py_max 0 v.
Proof.
  unfold py_max. destruct (Qltb 0 v) eqn:E.
  - apply Qltb_lt in E. lra.
  - lra.
Qed.

Lemma py_max_0_mono (u v : Q) : u <= v -> py_max 0 u <= py_max 0 v.
Proof.
  intro H. unfold py_max.
  destruct (Qltb 0 u) eqn:Eu, (Qltb 0 v) eqn:Ev;
    rewrite ?Qltb_lt, ?Qltb_ge in *; lra.
Qed.

Lemma fold_left_Qplus_acc (xs : list Q) (a : Q) :
  fold_left Qplus xs a == a + Qsum xs.
Proof.
  unfold Qsum. revert a.
  induction xs as [|x xs IH]; intro a; simpl.
  - ring.
  - rewrite (IH (a + x)), (IH (0 + x)). ring.
Qed.

Lemma Qsum_cons (x : Q) (xs : list Q) : Qsum (x :: xs) == x + Qsum xs.
Proof.
  unfold Qsum at 1. simpl. rewrite fold_left_Qplus_acc. ring.
Qed.

Lemma Qsum_app (xs ys : list Q) : Qsum (xs ++ ys) == Qsum xs + Qsum ys.
Proof.
  induction xs as [|x xs IH]; simpl.
  - unfold Qsum at 2. simpl. ring.
  - rewrite !Qsum_cons, IH. ring.
Qed.

Lemma Qsum_scale {A : Type} (c : Q) (f : A -> Q) (xs : list A) :
  Qsum (map (fun x => c * f x) xs) == c * Qsum (map f xs).
Proof.
  induction xs as [|x xs IH]; simpl.
  - unfold Qsum. simpl. ring.
  - rewrite !Qsum_cons, IH. ring.
Qed.

Lemma py_div_ok (x y q : Q) : py_div x y = Ok q -> ~ y == 0 /\ q = x / y.
Proof.
  unfold py_div. destruct (Qeq_bool y 0) eqn:E; [discriminate|].
  intro H. injection H as <-. split; [|reflexivity].
  intro Hy. apply Qeq_bool_iff in Hy. congruence.
Qed.

Lemma py_div_nonzero (x y : Q) : ~ y == 0 -> py_div x y = Ok (x / y).
Proof.
  intro H. unfold py_div. destruct (Qeq_bool y 0) eqn:E; [|reflexivity].
  apply Qeq_bool_iff in E. contradiction.
Qed.

Lemma py_div_zero (x y : Q) : y == 0 -> py_div x y = Raise ZeroDivisionError.
Proof.
  intro H. unfold py_div. apply Qeq_bool_iff in H. now rewrite H.
Qed.

Lemma bind_ok {A B : Type} (r : result A) (k : A -> result B) (b : B) :
  bind r k = Ok b -> exists a, r = Ok a /\ k a = Ok b.
Proof.
  destruct r as [a|e]; simpl; [eauto | discriminate].
Qed.

(** ** Equity returns *)

Lemma dict_set_fresh {V : Type} (k : string) (v : V) (d : list (string * V)) :
  ~ In k (map fst d) -> dict_set k v d = d ++ [(k, v)].
Proof.
  induction d as [|[k' v'] d IH]; simpl; intro Hk.
  - reflexivity.
  - destruct (String.eqb k k') eqn:E.
    + apply String.eqb_eq in E. subst. exfalso. apply Hk. now left.
    + rewrite IH; [reflexivity|]. intro Hin. apply Hk. now right.
Qed.

(** With distinct bucket names the loop appends one entry per bucket and
    accumulates the bucket returns in order. *)
Lemma equity_loop (count0 total_invested : Q) (d : Distribution) :
  forall (acc : list (string * Breakdown.t)) (t : Q),
    NoDup (map fst acc ++ map fst d) ->
    fold_left (equity_step count0 total_invested) d (acc, t) =
    (acc ++ map (fun item => (fst item, bucket_row count0 total_invested (snd item))) d,
     fold_left Qplus
       (map (fun item => total_invested * probability (snd item) * multiple (snd item)) d)
       t).
Proof.
  induction d as [|[outcome specs] d IH]; intros acc t Hnd; simpl.
  - now rewrite app_nil_r.
  - rewrite dict_set_fresh.
    + fold (bucket_row count0 total_invested specs).
      rewrite IH.
      * now rewrite <- app_assoc.
      * rewrite map_app, <- app_assoc. exact Hnd.
    + simpl in Hnd. apply NoDup_remove_2 in Hnd.
      intro Hin. apply Hnd. apply in_or_app. now left.
Qed.

Lemma calculate_equity_returns_eq (self : Model) (investment_type : string)
    (params : CategoryParams) :
  investment_params_get (investment_params self) investment_type = Ok params ->
  NoDup (map fst (distribution_of self investment_type)) ->
  calculate_equity_returns self investment_type =
  (moic <- py_div (expected_return (allocation params)
                                   (distribution_of self investment_type))
                  (allocation params) ;;
   Ok {| EquityReturns.total_invested := allocation params;
         EquityReturns.total_return :=
           expected_return (allocation params) (distribution_of self investment_type);
         EquityReturns.moic := moic;
         EquityReturns.breakdown :=
           map (fun item => (fst item,
                             bucket_row (count params) (allocation params) (snd item)))
               (distribution_of self investment_type) |}).
Proof.
  intros Hget Hnd. unfold calculate_equity_returns.
  rewrite Hget. simpl bind.
  rewrite equity_loop by exact Hnd.
  reflexivity.
Qed.

(** C3, as amended. For an equity category (seed or series_a) with a
    positive allocation and bucket probabilities that sum to 1,
    [calculate_equity_returns] returns; its total_return is the sum over the
    buckets of allocation * probability * multiple, its moic is
    total_return / total_invested, and the capital of each bucket of its
    breakdown is allocation * probability of that bucket. *)
Theorem C3_equity_returns (self : Model) (investment_type : string)
    (params : CategoryParams) :
  investment_type = "seed"%string \/ investment_type = "series_a"%string ->
  investment_params_get (investment_params self) investment_type = Ok params ->
  NoDup (map fst (distribution_of self investment_type)) ->
  0 < allocation params ->
  probability_mass (distribution_of self investment_type) == 1 ->
  exists r,
    calculate_equity_returns self investment_type = Ok r /\
    EquityReturns.total_invested r = allocation params /\
    EquityReturns.total_return r ==
      expected_return (allocation params) (distribution_of self investment_type) /\
    EquityReturns.moic r ==
      EquityReturns.total_return r / EquityReturns.total_invested r /\
    map (fun item => Breakdown.capital (snd item)) (EquityReturns.breakdown r) =
    map (fun item => allocation params * probability (snd item))
        (distribution_of self investment_type).
Proof.
  intros _ Hget Hnd Hpos _.
  rewrite (calculate_equity_returns_eq _ _ _ Hget Hnd).
  rewrite py_div_nonzero by lra. simpl bind.
  eexists. split; [reflexivity|]. simpl.
  repeat split; try reflexivity.
  now rewrite map_map.
Qed.

Lemma C3_equity_returns_witness :
  exists r,
    calculate_equity_returns (init 50) "series_a" = Ok r /\
    EquityReturns.total_invested r = 12.0 /\
    EquityReturns.total_return r ==
      0 + 12.0 * 0.10 * 30 + 12.0 * 0.20 * 8 + 12.0 * 0.30 * 3
      + 12.0 * 0.20 * 1 + 12.0 * 0.20 * 0 /\
    EquityReturns.moic r ==
      EquityReturns.total_return r / EquityReturns.total_invested r /\
    map (fun item => Breakdown.capital (snd item)) (EquityReturns.breakdown r) =
    [12.0 * 0.10; 12.0 * 0.20; 12.0 * 0.30; 12.0 * 0.20; 12.0 * 0.20].
Proof.
  destruct (C3_equity_returns (init 50) "series_a" (series_a default_investment_params))
    as [r (Hr & Hinv & Hret & Hmoic & Hcap)].
  - now right.
  - reflexivity.
  - vm_compute. repeat constructor; simpl; intuition discriminate.
  - vm_compute. reflexivity.
  - vm_compute. reflexivity.
  - exists r. repeat split; try assumption.
Defined.

(** C3, counterexample. On binary64 floats the default series_a category
    (allocation 12.0, probabilities that sum to 1.0) gets bucket capitals
    that sum to 12.000000000000002, not to its total_invested 12.0. *)
Lemma C3_capital_sum_is_rounded :
  PrimFloat.ltb 0%float (F64.allocation F64.default_series_a) = true /\
  F64.probability_mass F64.default_power_law_series_a = 1.0%float /\
  exists r,
    F64.calculate_equity_returns F64.default_series_a
                                 F64.default_power_law_series_a = Ok r /\
    F64.EquityReturns.total_invested r = 12.0%float /\
    F64.breakdown_capital (F64.EquityReturns.breakdown r)
    = 12.000000000000002%float /\
    PrimFloat.eqb (F64.breakdown_capital (F64.EquityReturns.breakdown r))
                  (F64.EquityReturns.total_invested r) = false.
Proof.
  split; [vm_compute; reflexivity|].
  split; [vm_compute; reflexivity|].
  eexists. split; [vm_compute; reflexivity|].
  repeat split; vm_compute; reflexivity.
Qed.

(** ** Revenue-share returns *)

(** C8, as amended. For every positive shared_safe allocation a,
    [calculate_revenue_share_returns] returns with
    revenue_share_return = a * 2.5, equity_return = (a * 0.40) * 1.5,
    total_return their sum, and a schedule that gives 0.20, 0.40 and 0.40 of
    revenue_share_return to the year 1-2, 3-4 and 5 buckets and the whole
    equity_return to the year 7-10 bucket. *)
Theorem C8_revenue_share_returns (self : Model) :
  0 < allocation (shared_safe (investment_params self)) ->
  exists r,
    calculate_revenue_share_returns self = Ok r /\
    RevenueShare.total_invested r = allocation (shared_safe (investment_params self)) /\
    RevenueShare.revenue_share_return r ==
      allocation (shared_safe (investment_params self)) * 2.5 /\
    RevenueShare.equity_return r ==
      (allocation (shared_safe (investment_params self)) * 0.40) * 1.5 /\
    RevenueShare.total_return r ==
      RevenueShare.revenue_share_return r + RevenueShare.equity_return r /\
    RsSchedule.year_1_2 (RevenueShare.cash_flow_schedule r) ==
      0.20 * RevenueShare.revenue_share_return r /\
    RsSchedule.year_3_4 (RevenueShare.cash_flow_schedule r) ==
      0.40 * RevenueShare.revenue_share_return r /\
    RsSchedule.year_5 (RevenueShare.cash_flow_schedule r) ==
      0.40 * RevenueShare.revenue_share_return r /\
    RsSchedule.year_7_10 (RevenueShare.cash_flow_schedule r) ==
      RevenueShare.equity_return r.
Proof.
  intro Hpos. unfold calculate_revenue_share_returns.
  rewrite py_div_nonzero by lra. simpl bind.
  eexists. split; [reflexivity|]. simpl.
  repeat split; try reflexivity; ring.
Qed.

Lemma C8_revenue_share_returns_witness :
  exists r,
    calculate_revenue_share_returns (init 50) = Ok r /\
    RevenueShare.revenue_share_return r == 30 /\
    RevenueShare.equity_return r == 7.2 /\
    RevenueShare.total_return r == 37.2 /\
    RsSchedule.year_1_2 (RevenueShare.cash_flow_schedule r) == 6 /\
    RsSchedule.year_3_4 (RevenueShare.cash_flow_schedule r) == 12 /\
    RsSchedule.year_5 (RevenueShare.cash_flow_schedule r) == 12 /\
    RsSchedule.year_7_10 (RevenueShare.cash_flow_schedule r) == 7.2.
Proof.
  destruct (C8_revenue_share_returns (init 50))
    as [r (Hr & Hinv & Hrs & Heq & Htot & H12 & H34 & H5 & H710)].
  - vm_compute. reflexivity.
  - exists r. split; [exact Hr|].
    assert (Ers : RevenueShare.revenue_share_return r == 30)
      by (rewrite Hrs; vm_compute; reflexivity).
    assert (Eeq : RevenueShare.equity_return r == 7.2)
      by (rewrite Heq; vm_compute; reflexivity).
    repeat split.
    + exact Ers.
    + exact Eeq.
    + rewrite Htot, Ers, Eeq. reflexivity.
    + rewrite H12, Ers. reflexivity.
    + rewrite H34, Ers. reflexivity.
    + rewrite H5, Ers. reflexivity.
    + rewrite H710. exact Eeq.
Defined.

(** C8, counterexample. At a = 0, an allocation within a >= 0, the function
    raises ZeroDivisionError instead of returning. *)
Lemma C8_zero_allocation_raises :
  0 <= allocation (shared_safe (investment_params (configure request_zero_safe))) /\
  calculate_revenue_share_returns (configure request_zero_safe)
  = Raise ZeroDivisionError.
Proof.
  split.
  - vm_compute. discriminate.
  - vm_compute. reflexivity.
Qed.

(** ** Portfolio returns *)

Ltac bind_inv H :=
  let a := fresh "a" in
  let Ha := fresh "Ha" in
  apply bind_ok in H; destruct H as (a & Ha & H).

Lemma category_row_name (self : Model) (name key : string)
    (calc_type : option string) (r : PortfolioRow.t) :
  category_row self (name, key, calc_type) = Ok r ->
  PortfolioRow.Category r = name.
Proof.
  unfold category_row.
  destruct (calc_type_is calc_type "revenue_share");
    [|destruct (calc_type_is calc_type "fixed")];
    intro H; repeat bind_inv H; injection H as <-; reflexivity.
Qed.

Lemma equity_returns_invested (self : Model) (key : string)
    (params : CategoryParams) (r : EquityReturns.t) :
  investment_params_get (investment_params self) key = Ok params ->
  calculate_equity_returns self key = Ok r ->
  EquityReturns.total_invested r = allocation params.
Proof.
  intros Hget. unfold calculate_equity_returns. rewrite Hget. simpl bind.
  destruct (fold_left _ _ _) as [b t].
  intro H. bind_inv H. injection H as <-. reflexivity.
Qed.

(** The invested value of each category row is the category's allocation. *)
Lemma category_row_invested (self : Model) (name key : string)
    (calc_type : option string) (params : CategoryParams) (r : PortfolioRow.t) :
  In (name, key, calc_type) categories ->
  investment_params_get (investment_params self) key = Ok params ->
  category_row self (name, key, calc_type) = Ok r ->
  PortfolioRow.Invested r = allocation params.
Proof.
  intros Hin Hget.
  simpl in Hin.
  repeat (destruct Hin as [Hin|Hin]; [injection Hin as <- <- <-|]);
    try contradiction; simpl in Hget; injection Hget as <-;
    unfold category_row; simpl calc_type_is; cbv iota; intro H.
  - bind_inv H. bind_inv H. injection H as <-. simpl.
    now apply (equity_returns_invested self "seed").
  - bind_inv H. bind_inv H. injection H as <-. simpl.
    unfold calculate_revenue_share_returns in Ha.
    bind_inv Ha. injection Ha as <-. reflexivity.
  - bind_inv H. bind_inv H. injection H as <-. simpl.
    now apply (equity_returns_invested self "series_a").
  - simpl in H. repeat bind_inv H. injection H as <-. reflexivity.
  - simpl in H. repeat bind_inv H. injection H as <-. reflexivity.
Qed.

(** The rows of a returned table, each the result of its category's pass
    of the loop, followed by the total row computed from them. *)
Lemma calculate_portfolio_returns_rows (self : Model) (table : PortfolioTable) :
  calculate_portfolio_returns self = Ok table ->
  exists r1 r2 r3 r4 r5,
    table = [r1; r2; r3; r4; r5; total_row [r1; r2; r3; r4; r5]] /\
    category_row self ("Seed", "seed", None)%string = Ok r1 /\
    category_row self ("Shared SAFE", "shared_safe", Some "revenue_share")%string = Ok r2 /\
    category_row self ("Series A", "series_a", None)%string = Ok r3 /\
    category_row self ("Incubation", "incubation", Some "fixed")%string = Ok r4 /\
    category_row self ("Recycled", "recycled", Some "fixed")%string = Ok r5.
Proof.
  unfold calculate_portfolio_returns. intro H.
  apply bind_ok in H. destruct H as (df & Hdf & H). injection H as <-.
  unfold categories in Hdf. cbn [for_each] in Hdf.
  apply bind_ok in Hdf. destruct Hdf as (r1 & H1 & Hdf).
  apply bind_ok in Hdf. destruct Hdf as (l1 & Hl1 & Hdf). injection Hdf as <-.
  apply bind_ok in Hl1. destruct Hl1 as (r2 & H2 & Hl1).
  apply bind_ok in Hl1. destruct Hl1 as (l2 & Hl2 & Hl1). injection Hl1 as <-.
  apply bind_ok in Hl2. destruct Hl2 as (r3 & H3 & Hl2).
  apply bind_ok in Hl2. destruct Hl2 as (l3 & Hl3 & Hl2). injection Hl2 as <-.
  apply bind_ok in Hl3. destruct Hl3 as (r4 & H4 & Hl3).
  apply bind_ok in Hl3. destruct Hl3 as (l4 & Hl4 & Hl3). injection Hl3 as <-.
  apply bind_ok in Hl4. destruct Hl4 as (r5 & H5 & Hl4).
  apply bind_ok in Hl4. destruct Hl4 as (l5 & Hl5 & Hl4). injection Hl4 as <-.
  injection Hl5 as <-.
  exists r1, r2, r3, r4, r5. repeat split; assumption.
Qed.

Lemma calculate_equity_returns_defined (self : Model) (key : string)
    (params : CategoryParams) :
  investment_params_get (investment_params self) key = Ok params ->
  ~ allocation params == 0 ->
  exists r,
    calculate_equity_returns self key = Ok r /\
    EquityReturns.total_invested r = allocation params.
Proof.
  intros Hget Ha. unfold calculate_equity_returns. rewrite Hget. cbn [bind].
  destruct (fold_left _ _ _) as [b t].
  rewrite py_div_nonzero by exact Ha. cbn [bind]. eauto.
Qed.

(** The table is returned whenever the three divisors of the category
    passes are not zero and the fixed categories carry their target_moic. *)
Lemma calculate_portfolio_returns_defined (self : Model) (m4 m5 : Q) :
  ~ allocation (seed (investment_params self)) == 0 ->
  ~ allocation (shared_safe (investment_params self)) == 0 ->
  ~ allocation (series_a (investment_params self)) == 0 ->
  ~ total_deployable self == 0 ->
  target_moic (incubation (investment_params self)) = Some m4 ->
  target_moic (recycled (investment_params self)) = Some m5 ->
  exists table, calculate_portfolio_returns self = Ok table.
Proof.
  intros Hseed Hsafe Hseries Hdep H4 H5.
  destruct (calculate_equity_returns_defined self "seed" _ eq_refl Hseed)
    as (e1 & He1 & _).
  destruct (calculate_equity_returns_defined self "series_a" _ eq_refl Hseries)
    as (e3 & He3 & _).
  unfold calculate_portfolio_returns, categories. cbn [for_each].
  unfold category_row. simpl calc_type_is. cbv iota.
  rewrite He1, He3. unfold calculate_revenue_share_returns.
  rewrite (py_div_nonzero _ _ Hsafe). cbn [bind].
  rewrite !(py_div_nonzero _ _ Hdep). cbn [bind].
  change (investment_params_get (investment_params self) "incubation")
    with (Ok (incubation (investment_params self))).
  change (investment_params_get (investment_params self) "recycled")
    with (Ok (recycled (investment_params self))).
  cbn [bind]. unfold get_target_moic. rewrite H4, H5.
  cbn [bind]. rewrite !(py_div_nonzero _ _ Hdep). cbn [bind]. eauto.
Qed.

(** C1. The table that [calculate_portfolio_returns] returns is the five
    category rows followed by the "Total Portfolio" row; in that row invested
    is the sum of the five invested values, gross return is the sum of the
    five gross returns plus 5.0, percent of portfolio is 100, and MOIC is the
    row's gross return divided by its invested value. *)
Theorem C1_total_portfolio_row (self : Model) (table : PortfolioTable) :
  calculate_portfolio_returns self = Ok table ->
  exists r1 r2 r3 r4 r5 total,
    table = [r1; r2; r3; r4; r5; total] /\
    map PortfolioRow.Category [r1; r2; r3; r4; r5] =
      ["Seed"; "Shared SAFE"; "Series A"; "Incubation"; "Recycled"]%string /\
    PortfolioRow.Category total = "Total Portfolio"%string /\
    PortfolioRow.Invested total ==
      PortfolioRow.Invested r1 + PortfolioRow.Invested r2 + PortfolioRow.Invested r3
      + PortfolioRow.Invested r4 + PortfolioRow.Invested r5 /\
    PortfolioRow.Gross_Return total ==
      PortfolioRow.Gross_Return r1 + PortfolioRow.Gross_Return r2
      + PortfolioRow.Gross_Return r3 + PortfolioRow.Gross_Return r4
      + PortfolioRow.Gross_Return r5 + 5.0 /\
    PortfolioRow.Pct_of_Portfolio total == 100 /\
    PortfolioRow.MOIC total ==
      PortfolioRow.Gross_Return total / PortfolioRow.Invested total.
Proof.
  intro H.
  destruct (calculate_portfolio_returns_rows _ _ H)
    as (r1 & r2 & r3 & r4 & r5 & -> & H1 & H2 & H3 & H4 & H5).
  exists r1, r2, r3, r4, r5, (total_row [r1; r2; r3; r4; r5]).
  split; [reflexivity|].
  split.
  { simpl. now rewrite (category_row_name _ _ _ _ _ H1), (category_row_name _ _ _ _ _ H2),
      (category_row_name _ _ _ _ _ H3), (category_row_name _ _ _ _ _ H4),
      (category_row_name _ _ _ _ _ H5). }
  split; [reflexivity|].
  unfold total_row, Qsum. simpl.
  repeat split; try reflexivity; ring.
Qed.

Lemma C1_total_portfolio_row_witness :
  exists r1 r2 r3 r4 r5 total,
    calculate_portfolio_returns (init 50) = Ok [r1; r2; r3; r4; r5; total] /\
    PortfolioRow.Category total = "Total Portfolio"%string /\
    PortfolioRow.Invested total == 45 /\
    PortfolioRow.Gross_Return total == 254.1 /\
    PortfolioRow.Gross_Return total ==
      PortfolioRow.Gross_Return r1 + PortfolioRow.Gross_Return r2
      + PortfolioRow.Gross_Return r3 + PortfolioRow.Gross_Return r4
      + PortfolioRow.Gross_Return r5 + 5.0 /\
    PortfolioRow.Pct_of_Portfolio total == 100.
Proof.
  destruct (calculate_portfolio_returns (init 50)) as [table|e] eqn:E;
    [|vm_compute in E; discriminate].
  destruct (C1_total_portfolio_row (init 50) table E)
    as (r1 & r2 & r3 & r4 & r5 & total & -> & Hnames & Hcat & Hinv & Hgross & Hpct & Hmoic).
  exists r1, r2, r3, r4, r5, total.
  vm_compute in E. injection E as <- <- <- <- <- <-.
  repeat split; try assumption; vm_compute; reflexivity.
Defined.

(** ** The frame and its index *)

Lemma position_seq (l n s : nat) :
  position l (seq s n) =
  if Nat.leb s l && Nat.ltb l (s + n) then Some (l - s)%nat else None.
Proof.
  revert s. induction n as [|n IH]; intro s; simpl.
  - destruct (Nat.leb_spec s l), (Nat.ltb_spec l (s + 0)); simpl; try reflexivity; lia.
  - destruct (Nat.eqb_spec s l) as [->|Hne].
    + rewrite Nat.leb_refl. destruct (Nat.ltb_spec l (l + S n)); [|lia].
      simpl. now rewrite Nat.sub_diag.
    + rewrite IH.
      destruct (Nat.leb_spec (S s) l), (Nat.leb_spec s l); try lia;
        destruct (Nat.ltb_spec l (S s + n)), (Nat.ltb_spec l (s + S n));
        try lia; simpl; try reflexivity.
      f_equal. lia.
Qed.

(** Writing the next label of a frame indexed [0 .. m - 1] either hits a row
    or appends the row [m]. *)
Lemma index_loc_set (l m : nat) (col : string) (v : Q) (df : DataFrame) :
  index df = seq 0 m -> (l <= m)%nat ->
  index (loc_set l col v df) = seq 0 (Nat.max m (S l)).
Proof.
  intros Hidx Hl. unfold loc_set. rewrite Hidx, position_seq. simpl.
  destruct (Nat.ltb_spec l m) as [Hlt|Hge]; simpl.
  - f_equal. lia.
  - assert (l = m) as -> by lia.
    rewrite Nat.max_r by lia. now rewrite seq_S.
Qed.

Lemma index_fill_frame (self : Model) (rs : RsSchedule.t) (df : DataFrame) :
  fill_frame self rs = Ok df ->
  index df = seq 0 (Nat.max (Z.to_nat (fund_life self)) 5).
Proof.
  unfold fill_frame, set_column.
  set (n := Z.to_nat (fund_life self)).
  match goal with
  | |- (if Nat.eqb _ (List.length (index ?d)) then _ else _) = _ -> _ =>
      set (frame := d)
  end.
  assert (Hidx : index frame = seq 0 (Nat.max n 5)).
  { unfold frame. cbn [loc_slice_set index].
    replace (Nat.max n 5)
      with (Nat.max (Nat.max (Nat.max (Nat.max (Nat.max n 1) 2) 3) 4) 5) by lia.
    repeat (apply index_loc_set; [|lia]).
    reflexivity. }
  destruct (Nat.eqb _ _); [|discriminate].
  intro H. injection H as <-. exact Hidx.
Qed.

(** The frame takes the ten equity exits only when [fund_life] is 10. *)
Lemma fill_frame_ok_life (self : Model) (rs : RsSchedule.t) (df : DataFrame) :
  fill_frame self rs = Ok df -> fund_life self = 10%Z.
Proof.
  intro H. pose proof (index_fill_frame _ _ _ H) as Hidx.
  unfold fill_frame, set_column in H.
  destruct (Nat.eqb_spec (List.length equity_exits) (List.length (index df))) as [E|E].
  - rewrite Hidx, length_seq in E. simpl in E. lia.
  - exfalso. apply E. clear E.
    match type of H with
    | (if Nat.eqb ?a ?b then _ else _) = _ =>
        destruct (Nat.eqb_spec a b) as [E'|E']; [|discriminate]
    end.
    injection H as <-. exact E'.
Qed.

Lemma fill_frame_raises (self : Model) (rs : RsSchedule.t) :
  fund_life self <> 10%Z ->
  fill_frame self rs =
  Raise (ValueError 10 (Nat.max (Z.to_nat (fund_life self)) 5)).
Proof.
  intro Hne. destruct (fill_frame self rs) as [df|e] eqn:E.
  - exfalso. apply Hne. exact (fill_frame_ok_life _ _ _ E).
  - unfold fill_frame, set_column in E.
    match type of E with
    | (if Nat.eqb ?a (List.length (index ?d)) then _ else _) = _ =>
        assert (Hidx : index d = seq 0 (Nat.max (Z.to_nat (fund_life self)) 5));
        [| destruct (Nat.eqb a (List.length (index d))); [discriminate|];
           rewrite Hidx, length_seq in E; injection E as <-; reflexivity ]
    end.
    cbn [loc_slice_set index].
    replace (Nat.max (Z.to_nat (fund_life self)) 5)
      with (Nat.max (Nat.max (Nat.max (Nat.max (Nat.max (Z.to_nat (fund_life self)) 1) 2) 3) 4) 5)
      by lia.
    repeat (apply index_loc_set; [|lia]).
    reflexivity.
Qed.

(** A ten-year frame after the writes: no row was added and every cell is
    a number. *)
Lemma fill_frame_life_10 (self : Model) (rs : RsSchedule.t) :
  fund_life self = 10%Z ->
  fill_frame self rs =
  Ok {| index := seq 0 10;
        columns :=
          [ ("Year"%string, map Some years_10);
            ("Capital Calls"%string, map Some (capital_calls_10 (fund_size self)));
            ("Revenue Share"%string, map Some (revenue_share_10 rs));
            ("Equity Exits"%string, map Some equity_exits);
            ("Total Distribution"%string, repeat (Some 0.0) 10) ] |}.
Proof.
  intro H. unfold fill_frame. rewrite H. reflexivity.
Qed.

(** No frame that passed the length check holds a NaN cell. *)
Lemma column_values_complete (self : Model) (rs : RsSchedule.t)
    (df : DataFrame) (col : string) :
  fill_frame self rs = Ok df -> column_values col df <> Raise (NaNCell col).
Proof.
  intro H. pose proof (fill_frame_ok_life _ _ _ H) as Hlife.
  rewrite (fill_frame_life_10 _ _ Hlife) in H. injection H as <-.
  unfold column_values. cbn [columns dict_get].
  repeat (destruct (String.eqb col _); [discriminate|]).
  discriminate.
Qed.

Lemma calculate_cash_flows_life_10 (self : Model) :
  fund_life self = 10%Z ->
  calculate_cash_flows self =
  (safe_returns <- calculate_revenue_share_returns self ;;
   Ok (derive_metrics (fund_size self) years_10
         (capital_calls_10 (fund_size self))
         (revenue_share_10 (RevenueShare.cash_flow_schedule safe_returns))
         equity_exits)).
Proof.
  intro H. unfold calculate_cash_flows.
  destruct (calculate_revenue_share_returns self) as [safe_returns|e];
    [|reflexivity].
  cbn [bind]. rewrite (fill_frame_life_10 _ _ H). reflexivity.
Qed.

Lemma calculate_cash_flows_ok_life (self : Model) (schedule : CashFlows.t) :
  calculate_cash_flows self = Ok schedule -> fund_life self = 10%Z.
Proof.
  unfold calculate_cash_flows. intro H.
  bind_inv H. bind_inv H.
  exact (fill_frame_ok_life _ _ _ Ha0).
Qed.

(** When the schedule is built: exactly for a ten-year fund whose
    shared_safe allocation is not zero. *)
Lemma calculate_cash_flows_defined (self : Model) :
  fund_life self = 10%Z ->
  ~ allocation (shared_safe (investment_params self)) == 0 ->
  exists schedule, calculate_cash_flows self = Ok schedule.
Proof.
  intros Hlife Ha. rewrite (calculate_cash_flows_life_10 _ Hlife).
  unfold calculate_revenue_share_returns.
  rewrite py_div_nonzero by exact Ha. cbn [bind]. eauto.
Qed.

Lemma calculate_cash_flows_short_life (self : Model) :
  fund_life self <> 10%Z ->
  ~ allocation (shared_safe (investment_params self)) == 0 ->
  calculate_cash_flows self =
  Raise (ValueError 10 (Nat.max (Z.to_nat (fund_life self)) 5)).
Proof.
  intros Hlife Ha. unfold calculate_cash_flows, calculate_revenue_share_returns.
  rewrite py_div_nonzero by exact Ha. cbn [bind].
  now rewrite fill_frame_raises.
Qed.

(** ** Cash-flow invariants *)

Lemma non_decreasing_map (f : Q -> Q) (xs : list Q) :
  (forall a b, a <= b -> f a <= f b) ->
  non_decreasing xs -> non_decreasing (map f xs).
Proof.
  intros Hf Hxs t a b Ha Hb.
  rewrite nth_error_map in Ha, Hb.
  destruct (nth_error xs t) as [a'|] eqn:Ea; [|discriminate].
  destruct (nth_error xs (S t)) as [b'|] eqn:Eb; [|discriminate].
  simpl in Ha, Hb. injection Ha as <-. injection Hb as <-.
  apply Hf. exact (Hxs t a' b' Ea Eb).
Qed.

Lemma cumsum_from_non_decreasing (xs : list Q) :
  Forall (fun x => 0 <= x) xs ->
  forall acc, non_decreasing (acc :: cumsum_from acc xs).
Proof.
  induction 1 as [|x xs Hx Hxs IH]; intros acc t a b Ha Hb.
  - destruct t; simpl in Hb; [discriminate|]. destruct t; discriminate.
  - destruct t as [|t]; simpl in Ha, Hb.
    + injection Ha as <-. injection Hb as <-. lra.
    + exact (IH (acc + x) t a b Ha Hb).
Qed.

(** The running sum of non-negative amounts never decreases. *)
Lemma cumsum_non_decreasing (xs : list Q) :
  Forall (fun x => 0 <= x) xs -> non_decreasing (cumsum xs).
Proof.
  intro H. destruct H as [|x xs Hx Hxs]; simpl.
  - intros t a b Ha. destruct t; discriminate.
  - now apply cumsum_from_non_decreasing.
Qed.

Lemma length_cumsum_from (xs : list Q) :
  forall acc, List.length (cumsum_from acc xs) = List.length xs.
Proof.
  induction xs as [|x xs IH]; intro acc; simpl; [reflexivity|].
  now rewrite IH.
Qed.

(** Every yearly distribution of a ten-year schedule is non-negative when
    the shared_safe allocation is. *)
Lemma total_distribution_nonneg (self : Model) (r : RevenueShare.t) :
  0 <= allocation (shared_safe (investment_params self)) ->
  calculate_revenue_share_returns self = Ok r ->
  Forall (fun x => 0 <= x)
         (map2 Qplus (revenue_share_10 (RevenueShare.cash_flow_schedule r))
               equity_exits).
Proof.
  intros Ha Hr. unfold calculate_revenue_share_returns in Hr.
  bind_inv Hr. injection Hr as <-. simpl.
  set (alloc := allocation (shared_safe (investment_params self))) in *.
  repeat constructor; lra.
Qed.

(** C5, as amended. In the schedule that [calculate_cash_flows] returns, for a
    non-negative shared_safe allocation, the cumulative distribution never
    decreases from one year to the next, nor does carry due, and in every
    year DPI is the cumulative distribution divided by fund_size. The
    schedule has one row per year of the fund's life. *)
Theorem C5_cash_flow_invariants (self : Model) (schedule : CashFlows.t) :
  0 <= allocation (shared_safe (investment_params self)) ->
  calculate_cash_flows self = Ok schedule ->
  List.length (CashFlows.Cumulative_Distribution schedule)
    = Z.to_nat (fund_life self) /\
  non_decreasing (CashFlows.Cumulative_Distribution schedule) /\
  non_decreasing (CashFlows.Carry_Due schedule) /\
  forall t,
    nth_error (CashFlows.DPI schedule) t =
    option_map (fun c => c / fund_size self)
               (nth_error (CashFlows.Cumulative_Distribution schedule) t).
Proof.
  intros Ha H.
  pose proof (calculate_cash_flows_ok_life _ _ H) as Hlife.
  rewrite (calculate_cash_flows_life_10 _ Hlife) in H.
  apply bind_ok in H. destruct H as (r & Hr & H). injection H as <-.
  pose proof (total_distribution_nonneg _ _ Ha Hr) as Hnn.
  unfold derive_metrics. cbn [CashFlows.Cumulative_Distribution CashFlows.Carry_Due CashFlows.DPI].
  assert (Hcum : non_decreasing
            (cumsum (map2 Qplus (revenue_share_10 (RevenueShare.cash_flow_schedule r))
                          equity_exits)))
    by (apply cumsum_non_decreasing; exact Hnn).
  split; [rewrite Hlife; reflexivity|].
  split; [exact Hcum|].
  split.
  - apply non_decreasing_map.
    + intros a b Hab. apply py_max_0_mono. lra.
    + apply non_decreasing_map; [intros a b Hab; lra | exact Hcum].
  - intro t. apply nth_error_map.
Qed.

Lemma C5_cash_flow_invariants_witness :
  exists schedule,
    calculate_cash_flows (init 50) = Ok schedule /\
    List.length (CashFlows.Cumulative_Distribution schedule) = 10%nat /\
    non_decreasing (CashFlows.Cumulative_Distribution schedule) /\
    non_decreasing (CashFlows.Carry_Due schedule) /\
    nth_error (CashFlows.DPI schedule) 4 =
    option_map (fun c => c / 50)
               (nth_error (CashFlows.Cumulative_Distribution schedule) 4).
Proof.
  destruct (calculate_cash_flows (init 50)) as [schedule|e] eqn:E;
    [|vm_compute in E; discriminate].
  exists schedule. split; [reflexivity|].
  destruct (C5_cash_flow_invariants (init 50) schedule) as (Hlen & Hcum & Hcarry & Hdpi).
  - vm_compute. discriminate.
  - exact E.
  - repeat split; try assumption. apply Hdpi.
Defined.

(** C5, counterexample. With the shared_safe allocation set to -12, a value
    that the parameter intake accepts, the schedule is returned and its
    cumulative distribution falls from year 1 to year 2: the revenue share
    of both years is negative. *)
Lemma C5_negative_allocation_falls :
  exists schedule a b,
    calculate_cash_flows (configure request_negative_safe) = Ok schedule /\
    nth_error (CashFlows.Cumulative_Distribution schedule) 0 = Some a /\
    nth_error (CashFlows.Cumulative_Distribution schedule) 1 = Some b /\
    b < a /\
    ~ non_decreasing (CashFlows.Cumulative_Distribution schedule).
Proof.
  eassert (E : calculate_cash_flows (configure request_negative_safe) = Ok _)
    by (vm_compute; reflexivity).
  eexists. eexists. eexists. split; [exact E|].
  split; [reflexivity|]. split; [reflexivity|].
  split; [vm_compute; reflexivity|].
  intro H. specialize (H 0%nat _ _ eq_refl eq_refl).
  revert H. vm_compute. intro H. now apply H.
Qed.

(** ** Carry in the schedule *)

(** Carry due is computed with the literal rate 0.20, whatever
    [carried_interest_rate] the model holds. *)
Lemma carry_due_fixed_rate (self : Model) (schedule : CashFlows.t) :
  calculate_cash_flows self = Ok schedule ->
  CashFlows.Carry_Due schedule =
  map (fun x => py_max 0 (x * 0.20)) (CashFlows.Gross_Profit schedule).
Proof.
  unfold calculate_cash_flows. intro H.
  repeat bind_inv H. injection H as <-. reflexivity.
Qed.

(** C2, the code on the failing input. With [carried_interest_rate] set to
    0.0 and everything else default, the schedule still charges carry: in
    year 5 carry due is 0.6 (gross profit 3.0 at the rate 0.20) and net to
    LPs is 23.4 against a total distribution of 24, while
    [calculate_lp_returns] on the same model does return carry = 0. *)
Theorem C2_zero_rate_still_charges_carry :
  carried_interest_rate (configure request_zero_carry) == 0 /\
  exists table schedule lp,
    calculate_portfolio_returns (configure request_zero_carry) = Ok table /\
    calculate_cash_flows (configure request_zero_carry) = Ok schedule /\
    nth 4 (CashFlows.Gross_Profit schedule) 0 == 3 /\
    nth 4 (CashFlows.Carry_Due schedule) 0 == 0.6 /\
    nth 4 (CashFlows.Total_Distribution schedule) 0 == 24 /\
    nth 4 (CashFlows.Net_to_LPs schedule) 0 == 23.4 /\
    calculate_lp_returns irr_reference (configure request_zero_carry) table = Ok lp /\
    LPReturns.carry lp == 0.
Proof.
  split; [vm_compute; reflexivity|].
  eexists. eexists. eexists.
  split; [vm_compute; reflexivity|].
  split; [vm_compute; reflexivity|].
  split; [vm_compute; reflexivity|].
  split; [vm_compute; reflexivity|].
  split; [vm_compute; reflexivity|].
  split; [vm_compute; reflexivity|].
  split; [vm_compute; reflexivity|].
  vm_compute; reflexivity.
Qed.

(** ** LP returns *)

Lemma total_portfolio_gross_return_row (table : PortfolioTable)
    (r : PortfolioRow.t) :
  total_portfolio_row table = Some r ->
  total_portfolio_gross_return table = Ok (PortfolioRow.Gross_Return r).
Proof.
  unfold total_portfolio_row, total_portfolio_gross_return.
  destruct (filter _ table) as [|r' rest]; simpl; [discriminate|].
  intro H. now injection H as <-.
Qed.

(** A returned table has its total row, and that is the row read. *)
Lemma calculate_portfolio_returns_total (self : Model) (table : PortfolioTable) :
  calculate_portfolio_returns self = Ok table ->
  exists total, total_portfolio_row table = Some total /\ last table total = total.
Proof.
  intro H.
  destruct (calculate_portfolio_returns_rows _ _ H)
    as (r1 & r2 & r3 & r4 & r5 & -> & H1 & H2 & H3 & H4 & H5).
  exists (total_row [r1; r2; r3; r4; r5]). split; [|reflexivity].
  unfold total_portfolio_row. cbn [filter].
  rewrite (category_row_name _ _ _ _ _ H1), (category_row_name _ _ _ _ _ H2),
    (category_row_name _ _ _ _ _ H3), (category_row_name _ _ _ _ _ H4),
    (category_row_name _ _ _ _ _ H5).
  reflexivity.
Qed.

(** The series for the IRR routine exists for every schedule that was
    built: the ten capital calls and the sum of the net-to-LPs column. *)
Lemma lp_cash_flow_series_defined (self : Model) (schedule : CashFlows.t) :
  calculate_cash_flows self = Ok schedule ->
  lp_cash_flow_series schedule =
  Ok (CashFlows.Capital_Calls schedule ++ [Qsum (CashFlows.Net_to_LPs schedule)]).
Proof.
  intro H.
  pose proof (calculate_cash_flows_ok_life _ _ H) as Hlife.
  rewrite (calculate_cash_flows_life_10 _ Hlife) in H.
  apply bind_ok in H. destruct H as (r & Hr & H). injection H as <-.
  unfold lp_cash_flow_series.
  set (net := CashFlows.Net_to_LPs _).
  assert (Hnet : iloc_last net = Ok (last net 0)) by reflexivity.
  rewrite Hnet. cbn [bind]. now rewrite removelast_last.
Qed.

(** With a positive fund size the series starts with a negative capital
    call: it is free of sign change only for a fund size of zero or less. *)
Lemma lp_series_negative_call (self : Model) (schedule : CashFlows.t)
    (series : list Q) :
  calculate_cash_flows self = Ok schedule ->
  lp_cash_flow_series schedule = Ok series ->
  0 < fund_size self ->
  forallb (Qle_bool 0) series = false.
Proof.
  intros Hs Hseries Hpos.
  rewrite (lp_cash_flow_series_defined _ _ Hs) in Hseries.
  injection Hseries as <-.
  pose proof (calculate_cash_flows_ok_life _ _ Hs) as Hlife.
  rewrite (calculate_cash_flows_life_10 _ Hlife) in Hs.
  apply bind_ok in Hs. destruct Hs as (r & _ & Hs). injection Hs as <-.
  cbn [derive_metrics CashFlows.Capital_Calls capital_calls_10 app forallb].
  destruct (Qle_bool 0 (- fund_size self / 4)) eqn:E; [|reflexivity].
  apply Qle_bool_iff in E. exfalso.
  unfold Qdiv in E. change (/ 4) with (1 # 4) in E. lra.
Qed.

(** What [calculate_lp_returns] returns once the total row and the schedule
    are there. *)
Lemma calculate_lp_returns_eq (npf_irr : list Q -> result cell) (self : Model)
    (table : PortfolioTable) (g : Q) (schedule : CashFlows.t) :
  total_portfolio_gross_return table = Ok g ->
  calculate_cash_flows self = Ok schedule ->
  calculate_lp_returns npf_irr self table =
  Ok {| LPReturns.gross_returns := g;
        LPReturns.gross_moic := g / fund_size self;
        LPReturns.gross_profit := g - fund_size self;
        LPReturns.carry :=
          if Qltb 0 (g - fund_size self)
          then (g - fund_size self) * carried_interest_rate self else 0;
        LPReturns.net_profit_to_lps :=
          g - fund_size self
          - (if Qltb 0 (g - fund_size self)
             then (g - fund_size self) * carried_interest_rate self else 0);
        LPReturns.total_lp_distribution :=
          fund_size self
          + (g - fund_size self
             - (if Qltb 0 (g - fund_size self)
                then (g - fund_size self) * carried_interest_rate self else 0));
        LPReturns.net_moic :=
          (fund_size self
           + (g - fund_size self
              - (if Qltb 0 (g - fund_size self)
                 then (g - fund_size self) * carried_interest_rate self else 0)))
          / fund_size self;
        LPReturns.net_irr :=
          match npf_irr (CashFlows.Capital_Calls schedule
                           ++ [Qsum (CashFlows.Net_to_LPs schedule)]) with
          | Ok r => r
          | Raise _ => Some 0.185
          end;
        LPReturns.management_fees := total_management_fees self;
        LPReturns.operating_expenses := operating_expenses self |}.
Proof.
  intros Hg Hs. unfold calculate_lp_returns.
  rewrite Hg, Hs. cbn [bind].
  rewrite (lp_cash_flow_series_defined _ _ Hs). reflexivity.
Qed.

(** Once the table has its total row and the cash-flow schedule is built,
    [calculate_lp_returns] returns: net_irr is 0.185 when the IRR routine
    raises on the LP series, and otherwise it is the value the routine
    returned, which the [try] does not inspect. *)
Lemma net_irr_follows_routine (npf_irr : list Q -> result cell) (self : Model)
    (table : PortfolioTable) (g : Q) (schedule : CashFlows.t) :
  total_portfolio_gross_return table = Ok g ->
  calculate_cash_flows self = Ok schedule ->
  exists series lp,
    lp_cash_flow_series schedule = Ok series /\
    calculate_lp_returns npf_irr self table = Ok lp /\
    (forall e, npf_irr series = Raise e -> LPReturns.net_irr lp = Some 0.185) /\
    (forall r, npf_irr series = Ok r -> LPReturns.net_irr lp = r).
Proof.
  intros Hg Hs. eexists. eexists.
  split; [exact (lp_cash_flow_series_defined _ _ Hs)|].
  split; [exact (calculate_lp_returns_eq npf_irr _ _ _ _ Hg Hs)|].
  cbn [LPReturns.net_irr].
  split; [intros e He | intros r Hr].
  - now rewrite He.
  - now rewrite Hr.
Qed.

(** With a routine that raises, the default model gets the fallback rate. *)
Lemma raising_routine_gives_fallback :
  exists table lp,
    calculate_portfolio_returns (init 50) = Ok table /\
    calculate_lp_returns irr_raising (init 50) table = Ok lp /\
    LPReturns.net_irr lp = Some 0.185.
Proof.
  destruct (calculate_portfolio_returns (init 50)) as [table|e] eqn:Et;
    [|vm_compute in Et; discriminate].
  destruct (calculate_cash_flows (init 50)) as [schedule|e] eqn:Es;
    [|vm_compute in Es; discriminate].
  destruct (calculate_portfolio_returns_total _ _ Et) as (total & Htot & _).
  destruct (net_irr_follows_routine irr_raising (init 50) table
              (PortfolioRow.Gross_Return total) schedule)
    as (series & lp & Hseries & Hlp & Hraise & _).
  - now apply total_portfolio_gross_return_row.
  - exact Es.
  - exists table, lp. repeat split; [exact Hlp|].
    exact (Hraise (ValueError 0 0) eq_refl).
Qed.

(** C4, the code on the failing input. With fund_size -50 and everything
    else default, every entry of the LP cash-flow series is non-negative, so
    the series has no sign change; the routine, like numpy_financial's,
    answers NaN without raising, the [except] branch is not taken, and
    net_irr is that NaN instead of 0.185. *)
Theorem C4_no_sign_change_gives_nan :
  exists table schedule series lp,
    calculate_portfolio_returns (configure request_negative_fund) = Ok table /\
    calculate_cash_flows (configure request_negative_fund) = Ok schedule /\
    lp_cash_flow_series schedule = Ok series /\
    forallb (Qle_bool 0) series = true /\
    irr_reference series = Ok None /\
    calculate_lp_returns irr_reference (configure request_negative_fund) table = Ok lp /\
    LPReturns.net_irr lp = None /\
    LPReturns.net_irr lp <> Some 0.185.
Proof.
  eexists. eexists. eexists. eexists.
  split; [vm_compute; reflexivity|].
  split; [vm_compute; reflexivity|].
  split; [vm_compute; reflexivity|].
  split; [vm_compute; reflexivity|].
  split; [vm_compute; reflexivity|].
  split; [vm_compute; reflexivity|].
  split; [reflexivity | discriminate].
Qed.

(** C10. For a fixed model, two tables whose "Total Portfolio" rows carry
    equal gross returns give the same [calculate_lp_returns] outcome, field
    by field: nothing else of the table is read. *)
Theorem C10_only_total_gross_return (npf_irr : list Q -> result cell)
    (self : Model) (t1 t2 : PortfolioTable) (r1 r2 : PortfolioRow.t) :
  total_portfolio_row t1 = Some r1 ->
  total_portfolio_row t2 = Some r2 ->
  PortfolioRow.Gross_Return r1 == PortfolioRow.Gross_Return r2 ->
  lp_result_equiv (calculate_lp_returns npf_irr self t1)
                  (calculate_lp_returns npf_irr self t2).
Proof.
  intros H1 H2 Hg.
  apply total_portfolio_gross_return_row in H1, H2.
  destruct (calculate_cash_flows self) as [schedule|e] eqn:Es.
  - rewrite (calculate_lp_returns_eq npf_irr _ _ _ _ H1 Es),
      (calculate_lp_returns_eq npf_irr _ _ _ _ H2 Es).
    set (g1 := PortfolioRow.Gross_Return r1) in *.
    set (g2 := PortfolioRow.Gross_Return r2) in *.
    assert (Hc : (if Qltb 0 (g1 - fund_size self)
                  then (g1 - fund_size self) * carried_interest_rate self else 0)
                 == (if Qltb 0 (g2 - fund_size self)
                     then (g2 - fund_size self) * carried_interest_rate self else 0)).
    { rewrite (Qltb_comp 0 0 (g1 - fund_size self) (g2 - fund_size self));
        [|reflexivity | now rewrite Hg].
      destruct (Qltb 0 (g2 - fund_size self)); [now rewrite Hg | reflexivity]. }
    unfold lp_result_equiv, lp_equiv. cbn.
    repeat split; try reflexivity; try exact Hg; try exact Hc;
      rewrite ?Hc, ?Hg; reflexivity.
  - unfold calculate_lp_returns. rewrite H1, H2, Es. reflexivity.
Qed.

Lemma C10_only_total_gross_return_witness :
  exists table,
    calculate_portfolio_returns (init 50) = Ok table /\
    table <> lone_total_table /\
    lp_result_equiv (calculate_lp_returns irr_reference (init 50) table)
                    (calculate_lp_returns irr_reference (init 50) lone_total_table).
Proof.
  destruct (calculate_portfolio_returns (init 50)) as [table|e] eqn:Et;
    [|vm_compute in Et; discriminate].
  exists table. split; [reflexivity|].
  destruct (calculate_portfolio_returns_total _ _ Et) as (total & Htot & Hlast).
  split.
  - vm_compute in Et. injection Et as <-. discriminate.
  - apply (C10_only_total_gross_return irr_reference (init 50) table lone_total_table
             total (hd total lone_total_table)).
    + exact Htot.
    + reflexivity.
    + rewrite <- Hlast. vm_compute in Et. injection Et as <-.
      vm_compute. reflexivity.
Defined.

(** ** Sensitivity *)

Lemma calculate_lp_returns_fields (npf_irr : list Q -> result cell)
    (self : Model) (table : PortfolioTable) (lp : LPReturns.t) :
  calculate_lp_returns npf_irr self table = Ok lp ->
  fund_life self = 10%Z /\
  LPReturns.gross_moic lp = LPReturns.gross_returns lp / fund_size self.
Proof.
  unfold calculate_lp_returns. intro H.
  repeat bind_inv H. injection H as <-.
  split; [exact (calculate_cash_flows_ok_life _ _ Ha0) | reflexivity].
Qed.

(** The sensitivity table is returned whenever the LP returns are: for a
    table with a total row, a ten-year fund and a shared_safe allocation
    that is not zero. *)
Lemma sensitivity_analysis_defined (npf_irr : list Q -> result cell)
    (pow : Q -> Q -> cell) (self : Model) (table : PortfolioTable) (g : Q) :
  total_portfolio_gross_return table = Ok g ->
  fund_life self = 10%Z ->
  ~ allocation (shared_safe (investment_params self)) == 0 ->
  exists st, sensitivity_analysis npf_irr pow self table = Ok st.
Proof.
  intros Hg Hlife Ha.
  destruct (calculate_cash_flows_defined _ Hlife Ha) as (schedule & Hs).
  unfold sensitivity_analysis.
  rewrite (calculate_lp_returns_eq npf_irr _ _ _ _ Hg Hs). cbn [bind]. eauto.
Qed.

(** C6. The table that [sensitivity_analysis] returns has three rows,
    downside, base case and upside; the downside gross return is 0.7 times
    the base-case gross return and the upside 1.3 times it, and the base-case
    gross MOIC is the gross_moic that [calculate_lp_returns] returns on the
    same table. *)
Theorem C6_sensitivity_scenarios (npf_irr : list Q -> result cell)
    (pow : Q -> Q -> cell) (self : Model) (table : PortfolioTable)
    (st : SensitivityTable) :
  sensitivity_analysis npf_irr pow self table = Ok st ->
  exists down base up lp,
    st = [down; base; up] /\
    map Scenario.Scenario st =
      ["Downside (-30%)"; "Base Case"; "Upside (+30%)"]%string /\
    calculate_lp_returns npf_irr self table = Ok lp /\
    Scenario.Gross_Returns base == LPReturns.gross_returns lp /\
    Scenario.Gross_Returns down == 0.7 * Scenario.Gross_Returns base /\
    Scenario.Gross_Returns up == 1.3 * Scenario.Gross_Returns base /\
    Scenario.Gross_MOIC base == LPReturns.gross_moic lp.
Proof.
  unfold sensitivity_analysis. intro H.
  apply bind_ok in H. destruct H as (lp & Hlp & H). injection H as <-.
  destruct (calculate_lp_returns_fields _ _ _ _ Hlp) as (_ & Hmoic).
  do 3 eexists. exists lp.
  split; [reflexivity|].
  split; [reflexivity|].
  split; [exact Hlp|].
  cbn. rewrite Hmoic. unfold Qdiv.
  repeat split; ring.
Qed.

Lemma C6_sensitivity_scenarios_witness :
  exists table down base up lp,
    calculate_portfolio_returns (init 50) = Ok table /\
    sensitivity_analysis irr_reference pow_reference (init 50) table
    = Ok [down; base; up] /\
    calculate_lp_returns irr_reference (init 50) table = Ok lp /\
    Scenario.Gross_Returns base == 254.1 /\
    Scenario.Gross_Returns down == 0.7 * Scenario.Gross_Returns base /\
    Scenario.Gross_Returns up == 1.3 * Scenario.Gross_Returns base /\
    Scenario.Gross_MOIC base == LPReturns.gross_moic lp.
Proof.
  eassert (Et : calculate_portfolio_returns (init 50) = Ok _)
    by (vm_compute; reflexivity).
  match type of Et with
  | _ = Ok ?t =>
      eassert (Es : sensitivity_analysis irr_reference pow_reference (init 50) t = Ok _)
        by (vm_compute; reflexivity)
  end.
  destruct (C6_sensitivity_scenarios _ _ _ _ _ Es)
    as (down & base & up & lp & Hst & _ & Hlp & _ & Hdown & Hup & Hmoic).
  injection Hst as <- <- <-.
  eexists. eexists. eexists. eexists. exists lp.
  split; [exact Et|].
  split; [exact Es|].
  split; [exact Hlp|].
  split; [vm_compute; reflexivity|].
  repeat split; assumption.
Defined.

(** C7, as amended. Every row of the table that [sensitivity_analysis]
    returns reports its estimated net IRR in percent:
    (net_moic ^ (1 / fund_life) - 1) * 100, net_moic being the row's net
    MOIC. The exponent is written 1/10 in the code; the table is returned
    only for a fund life of 10. *)
Theorem C7_net_irr_in_percent (npf_irr : list Q -> result cell)
    (pow : Q -> Q -> cell) (self : Model) (table : PortfolioTable)
    (st : SensitivityTable) (row : Scenario.t) :
  sensitivity_analysis npf_irr pow self table = Ok st ->
  In row st ->
  Scenario.Net_IRR_pct row =
  option_map (fun p => (p - 1) * 100)
             (pow (Scenario.Net_MOIC row) (1 / inject_Z (fund_life self))).
Proof.
  unfold sensitivity_analysis. intros H Hin.
  apply bind_ok in H. destruct H as (lp & Hlp & H). injection H as <-.
  destruct (calculate_lp_returns_fields _ _ _ _ Hlp) as (Hlife & _).
  rewrite Hlife.
  simpl in Hin. destruct Hin as [<-|[<-|[<-|[]]]]; reflexivity.
Qed.

Lemma C7_net_irr_in_percent_witness :
  exists table st row,
    calculate_portfolio_returns (init 50) = Ok table /\
    sensitivity_analysis irr_reference pow_reference (init 50) table = Ok st /\
    nth_error st 1 = Some row /\
    Scenario.Net_IRR_pct row =
    option_map (fun p => (p - 1) * 100)
               (pow_reference (Scenario.Net_MOIC row) (1 / 10)).
Proof.
  eassert (Et : calculate_portfolio_returns (init 50) = Ok _)
    by (vm_compute; reflexivity).
  match type of Et with
  | _ = Ok ?t =>
      eassert (Es : sensitivity_analysis irr_reference pow_reference (init 50) t = Ok _)
        by (vm_compute; reflexivity)
  end.
  eexists. eexists. eexists.
  split; [exact Et|].
  split; [exact Es|].
  split; [reflexivity|].
  apply (C7_net_irr_in_percent _ _ _ _ _ _ Es).
  right. left. reflexivity.
Defined.

(** C7, counterexample. On the default model the base-case row holds about
    15.6, a percentage, where net_moic ^ (1 / fund_life) - 1 is about
    0.156. *)
Lemma C7_base_case_is_not_the_plain_rate :
  exists table st row,
    calculate_portfolio_returns (init 50) = Ok table /\
    sensitivity_analysis irr_reference pow_reference (init 50) table = Ok st /\
    nth_error st 1 = Some row /\
    cell_eq (Scenario.Net_IRR_pct row) (Some 15.6106952113) /\
    cell_eq (plain_rate_estimate pow_reference (init 50) row) (Some 0.156106952113) /\
    ~ cell_eq (Scenario.Net_IRR_pct row)
              (plain_rate_estimate pow_reference (init 50) row).
Proof.
  eexists. eexists. eexists.
  split; [vm_compute; reflexivity|].
  split; [vm_compute; reflexivity|].
  split; [vm_compute; reflexivity|].
  split; [vm_compute; reflexivity|].
  split; [vm_compute; reflexivity|].
  vm_compute. discriminate.
Qed.

(** ** Rejection of a configuration *)

Lemma category_row_safe_allocation (self : Model) (r : PortfolioRow.t) :
  category_row self ("Shared SAFE", "shared_safe", Some "revenue_share")%string = Ok r ->
  ~ allocation (shared_safe (investment_params self)) == 0.
Proof.
  unfold category_row. simpl calc_type_is. cbv iota. intro H.
  bind_inv H. unfold calculate_revenue_share_returns in Ha.
  bind_inv Ha. now apply py_div_ok in Ha0.
Qed.

(** With a fund life other than 10 the calculations stop with an exception:
    the one the portfolio raises, or else the length mismatch of the
    cash-flow frame, met after the portfolio table has been computed. *)
Lemma run_calculations_other_life (npf_irr : list Q -> result cell)
    (pow : Q -> Q -> cell) (self : Model) :
  fund_life self <> 10%Z ->
  exists e,
    run_calculations npf_irr pow self = Raise e /\
    (calculate_portfolio_returns self = Raise e \/
     (exists table, calculate_portfolio_returns self = Ok table) /\
     e = ValueError 10 (Nat.max (Z.to_nat (fund_life self)) 5)).
Proof.
  intro Hlife. unfold run_calculations.
  destruct (calculate_portfolio_returns self) as [table|e] eqn:Et.
  - cbn [bind].
    destruct (calculate_portfolio_returns_total _ _ Et) as (total & Htot & _).
    destruct (calculate_portfolio_returns_rows _ _ Et)
      as (r1 & r2 & r3 & r4 & r5 & _ & _ & H2 & _).
    apply category_row_safe_allocation in H2.
    unfold calculate_lp_returns.
    rewrite (total_portfolio_gross_return_row _ _ Htot). cbn [bind].
    rewrite (calculate_cash_flows_short_life _ Hlife H2). cbn [bind].
    eexists. split; [reflexivity|]. right. split; [eauto | reflexivity].
  - cbn [bind]. exists e. split; [reflexivity|]. now left.
Qed.

(** C9, as amended. A request whose fund life is below 4 is answered with
    status 400 and the text of an exception raised during the calculations:
    the portfolio's own exception, or else, once the portfolio table has been
    computed, the length mismatch of the cash-flow frame (10 values for an
    index of 5). Nothing refuses the configuration beforehand. *)
Theorem C9_short_life_rejected (npf_irr : list Q -> result cell)
    (pow : Q -> Q -> cell) (data : Request.t) :
  (fund_life (configure data) < 4)%Z ->
  exists e,
    run_model npf_irr pow data = Http400 e /\
    (calculate_portfolio_returns (configure data) = Raise e \/
     (exists table, calculate_portfolio_returns (configure data) = Ok table) /\
     e = ValueError 10 5).
Proof.
  intro Hlife.
  destruct (run_calculations_other_life npf_irr pow (configure data))
    as (e & Hrun & He); [lia|].
  exists e. split.
  - unfold run_model. now rewrite Hrun.
  - replace (Nat.max (Z.to_nat (fund_life (configure data))) 5) with 5%nat in He
      by lia.
    exact He.
Qed.

Lemma C9_short_life_rejected_witness :
  run_model irr_reference pow_reference request_short_life
  = Http400 (ValueError 10 5) /\
  exists table, calculate_portfolio_returns (configure request_short_life) = Ok table.
Proof.
  destruct (C9_short_life_rejected irr_reference pow_reference request_short_life)
    as (e & Hrun & [Hraise | (Htable & ->)]).
  - vm_compute. reflexivity.
  - exfalso. revert Hraise. vm_compute. discriminate.
  - split; [exact Hrun | exact Htable].
Defined.

(** C9, counterexample. The request with fund_size -50 is configured and
    every calculation runs to its end. *)
Lemma C9_negative_fund_size_accepted :
  fund_size (configure request_negative_fund) <= 0 /\
  exists body,
    run_model irr_reference pow_reference request_negative_fund = Http200 body.
Proof.
  split.
  - vm_compute. discriminate.
  - eexists. vm_compute. reflexivity.
Qed.

(** * Further properties of the engine *)

(** ** Equity returns: outcomes *)

Lemma investment_params_get_raise (p : InvestmentParams) (key : string) (e : exn) :
  investment_params_get p key = Raise e ->
  ~ In key category_names /\ e = KeyError key.
Proof.
  unfold investment_params_get, category_names.
  destruct (String.eqb_spec key "seed"); [discriminate|].
  destruct (String.eqb_spec key "shared_safe"); [discriminate|].
  destruct (String.eqb_spec key "series_a"); [discriminate|].
  destruct (String.eqb_spec key "incubation"); [discriminate|].
  destruct (String.eqb_spec key "recycled"); [discriminate|].
  intro H. injection H as <-. split; [|reflexivity].
  simpl. intuition congruence.
Qed.

Lemma investment_params_get_ok (p : InvestmentParams) (key : string)
    (params : CategoryParams) :
  investment_params_get p key = Ok params -> In key category_names.
Proof.
  unfold investment_params_get, category_names.
  destruct (String.eqb_spec key "seed"); [subst; simpl; tauto|].
  destruct (String.eqb_spec key "shared_safe"); [subst; simpl; tauto|].
  destruct (String.eqb_spec key "series_a"); [subst; simpl; tauto|].
  destruct (String.eqb_spec key "incubation"); [subst; simpl; tauto|].
  destruct (String.eqb_spec key "recycled"); [subst; simpl; tauto|].
  discriminate.
Qed.

Lemma calculate_equity_returns_zero (self : Model) (key : string)
    (params : CategoryParams) :
  investment_params_get (investment_params self) key = Ok params ->
  allocation params == 0 ->
  calculate_equity_returns self key = Raise ZeroDivisionError.
Proof.
  intros Hget Ha. unfold calculate_equity_returns. rewrite Hget. cbn [bind].
  destruct (fold_left _ _ _) as [b t].
  now rewrite (py_div_zero _ _ Ha).
Qed.

(** X1. [calculate_equity_returns] returns exactly for a key of
    [investment_params] whose allocation is not zero. For any other key it
    raises KeyError with that key, and for a zero allocation
    ZeroDivisionError. Any of the five categories is accepted, not only the
    two equity ones. *)
Theorem X1_equity_returns_outcome (self : Model) (key : string) :
  match calculate_equity_returns self key with
  | Ok r =>
      exists params,
        In key category_names /\
        investment_params_get (investment_params self) key = Ok params /\
        ~ allocation params == 0 /\
        EquityReturns.total_invested r = allocation params
  | Raise e =>
      (~ In key category_names /\ e = KeyError key) \/
      (exists params,
         investment_params_get (investment_params self) key = Ok params /\
         allocation params == 0 /\ e = ZeroDivisionError)
  end.
Proof.
  destruct (investment_params_get (investment_params self) key) as [params|e0] eqn:Hget.
  - destruct (Qeq_dec (allocation params) 0) as [Hz|Hnz].
    + rewrite (calculate_equity_returns_zero _ _ _ Hget Hz).
      right. exists params. repeat split; assumption.
    + destruct (calculate_equity_returns_defined _ _ _ Hget Hnz) as (r & Hr & Hinv).
      rewrite Hr. exists params.
      repeat split; try assumption.
      exact (investment_params_get_ok _ _ _ Hget).
  - unfold calculate_equity_returns. rewrite Hget. cbn [bind].
    left. exact (investment_params_get_raise _ _ _ Hget).
Qed.

(** ** Portfolio returns: when the table is returned and what its rows keep *)

Lemma bind_raise {A B : Type} (r : result A) (k : A -> result B) (e : exn) :
  bind r k = Raise e -> r = Raise e \/ exists a, r = Ok a /\ k a = Raise e.
Proof.
  destruct r as [a|e0]; simpl; intro H.
  - right. eauto.
  - left. now injection H as <-.
Qed.

Lemma py_div_raise (x y : Q) (e : exn) :
  py_div x y = Raise e -> e = ZeroDivisionError /\ y == 0.
Proof.
  unfold py_div. destruct (Qeq_bool y 0) eqn:E; [|discriminate].
  intro H. injection H as <-. split; [reflexivity|].
  now apply Qeq_bool_iff.
Qed.

Lemma for_each_raise {A B : Type} (f : A -> result B) (xs : list A) (e : exn) :
  for_each f xs = Raise e -> exists x, In x xs /\ f x = Raise e.
Proof.
  induction xs as [|x xs IH]; simpl; [discriminate|].
  intro H. apply bind_raise in H. destruct H as [H|(y & Hy & H)].
  - exists x. split; [now left | exact H].
  - apply bind_raise in H. destruct H as [H|(ys & _ & H)]; [|discriminate].
    destruct (IH H) as (x' & Hin & Hx'). exists x'. split; [now right | exact Hx'].
Qed.

Lemma equity_returns_moic (self : Model) (key : string) (r : EquityReturns.t) :
  calculate_equity_returns self key = Ok r ->
  ~ EquityReturns.total_invested r == 0 /\
  EquityReturns.moic r = EquityReturns.total_return r / EquityReturns.total_invested r.
Proof.
  unfold calculate_equity_returns. intro H.
  apply bind_ok in H. destruct H as (params & _ & H).
  destruct (fold_left _ _ _) as [b t].
  apply bind_ok in H. destruct H as (m & Hm & H). injection H as <-.
  apply py_div_ok in Hm. exact Hm.
Qed.

Lemma equity_returns_raise (self : Model) (key : string) (e : exn) :
  In key category_names ->
  calculate_equity_returns self key = Raise e -> e = ZeroDivisionError.
Proof.
  intros Hin H. unfold calculate_equity_returns in H.
  destruct (investment_params_get (investment_params self) key) as [params|e0] eqn:Hget.
  - cbn [bind] in H. destruct (fold_left _ _ _) as [b t].
    apply bind_raise in H. destruct H as [H|(m & _ & H)]; [|discriminate].
    now apply py_div_raise in H.
  - apply investment_params_get_raise in Hget. tauto.
Qed.

(** What a category pass leaves in its row: the percentage is invested over
    total_deployable times 100, that divisor is not zero, and the gross
    return is MOIC times invested. *)
Lemma category_row_shape (self : Model) (cat : string * string * option string)
    (r : PortfolioRow.t) :
  category_row self cat = Ok r ->
  ~ total_deployable self == 0 /\
  PortfolioRow.Pct_of_Portfolio r
    = PortfolioRow.Invested r / total_deployable self * 100 /\
  PortfolioRow.Gross_Return r == PortfolioRow.MOIC r * PortfolioRow.Invested r.
Proof.
  destruct cat as [[name key] calc_type]. unfold category_row.
  destruct (calc_type_is calc_type "revenue_share");
    [|destruct (calc_type_is calc_type "fixed")]; intro H.
  - apply bind_ok in H. destruct H as (returns & Hr & H).
    apply bind_ok in H. destruct H as (pct & Hpct & H). injection H as <-.
    apply py_div_ok in Hpct. destruct Hpct as (Hdep & ->).
    unfold calculate_revenue_share_returns in Hr.
    apply bind_ok in Hr. destruct Hr as (m & Hm & Hr). injection Hr as <-.
    apply py_div_ok in Hm. destruct Hm as (Ha & ->). cbn.
    repeat split; [exact Hdep|]. field. exact Ha.
  - apply bind_ok in H. destruct H as (params & _ & H).
    apply bind_ok in H. destruct H as (m & _ & H).
    apply bind_ok in H. destruct H as (pct & Hpct & H). injection H as <-.
    apply py_div_ok in Hpct. destruct Hpct as (Hdep & ->). cbn.
    repeat split; [exact Hdep|]. ring.
  - apply bind_ok in H. destruct H as (returns & Hr & H).
    apply bind_ok in H. destruct H as (pct & Hpct & H). injection H as <-.
    apply py_div_ok in Hpct. destruct Hpct as (Hdep & ->).
    destruct (equity_returns_moic _ _ _ Hr) as (Hinv & Hmoic). cbn.
    repeat split; [exact Hdep|]. rewrite Hmoic. field. exact Hinv.
Qed.

Lemma category_row_raise (self : Model) (cat : string * string * option string)
    (m4 m5 : Q) (e : exn) :
  target_moic (incubation (investment_params self)) = Some m4 ->
  target_moic (recycled (investment_params self)) = Some m5 ->
  In cat categories ->
  category_row self cat = Raise e -> e = ZeroDivisionError.
Proof.
  intros H4 H5 Hin. simpl in Hin.
  repeat (destruct Hin as [<-|Hin]); try contradiction;
    unfold category_row; simpl calc_type_is; cbv iota; intro H.
  - apply bind_raise in H. destruct H as [H|(r & _ & H)].
    + apply (equity_returns_raise self "seed"); [simpl; tauto | exact H].
    + apply bind_raise in H. destruct H as [H|(p & _ & H)]; [|discriminate].
      now apply py_div_raise in H.
  - apply bind_raise in H. destruct H as [H|(r & _ & H)].
    + unfold calculate_revenue_share_returns in H.
      apply bind_raise in H. destruct H as [H|(p & _ & H)]; [|discriminate].
      now apply py_div_raise in H.
    + apply bind_raise in H. destruct H as [H|(p & _ & H)]; [|discriminate].
      now apply py_div_raise in H.
  - apply bind_raise in H. destruct H as [H|(r & _ & H)].
    + apply (equity_returns_raise self "series_a"); [simpl; tauto | exact H].
    + apply bind_raise in H. destruct H as [H|(p & _ & H)]; [|discriminate].
      now apply py_div_raise in H.
  - change (investment_params_get (investment_params self) "incubation")
      with (Ok (incubation (investment_params self))) in H.
    cbn [bind] in H. unfold get_target_moic in H. rewrite H4 in H. cbn [bind] in H.
    apply bind_raise in H. destruct H as [H|(p & _ & H)]; [|discriminate].
    now apply py_div_raise in H.
  - change (investment_params_get (investment_params self) "recycled")
      with (Ok (recycled (investment_params self))) in H.
    cbn [bind] in H. unfold get_target_moic in H. rewrite H5 in H. cbn [bind] in H.
    apply bind_raise in H. destruct H as [H|(p & _ & H)]; [|discriminate].
    now apply py_div_raise in H.
Qed.

(** X5. With the two fixed categories carrying their target_moic,
    [calculate_portfolio_returns] returns the table exactly when the
    allocations of seed, shared_safe and series_a and total_deployable are
    all different from zero, and otherwise raises ZeroDivisionError. A zero
    allocation of incubation or recycled does not stop it. *)
Theorem X5_portfolio_returns_outcome (self : Model) (m4 m5 : Q) :
  target_moic (incubation (investment_params self)) = Some m4 ->
  target_moic (recycled (investment_params self)) = Some m5 ->
  match calculate_portfolio_returns self with
  | Ok table =>
      ~ allocation (seed (investment_params self)) == 0 /\
      ~ allocation (shared_safe (investment_params self)) == 0 /\
      ~ allocation (series_a (investment_params self)) == 0 /\
      ~ total_deployable self == 0
  | Raise e =>
      e = ZeroDivisionError /\
      (allocation (seed (investment_params self)) == 0 \/
       allocation (shared_safe (investment_params self)) == 0 \/
       allocation (series_a (investment_params self)) == 0 \/
       total_deployable self == 0)
  end.
Proof.
  intros H4 H5.
  destruct (calculate_portfolio_returns self) as [table|e] eqn:E.
  - destruct (calculate_portfolio_returns_rows _ _ E)
      as (r1 & r2 & r3 & r4 & r5 & _ & H1 & H2 & H3 & _).
    destruct (category_row_shape _ _ _ H1) as (Hdep & _).
    repeat split; try exact Hdep.
    + unfold category_row in H1. simpl calc_type_is in H1. cbv iota in H1.
      apply bind_ok in H1. destruct H1 as (e1 & He1 & _).
      destruct (equity_returns_moic _ _ _ He1) as (Hinv & _).
      now rewrite (equity_returns_invested self "seed" _ _ eq_refl He1) in Hinv.
    + exact (category_row_safe_allocation _ _ H2).
    + unfold category_row in H3. simpl calc_type_is in H3. cbv iota in H3.
      apply bind_ok in H3. destruct H3 as (e3 & He3 & _).
      destruct (equity_returns_moic _ _ _ He3) as (Hinv & _).
      now rewrite (equity_returns_invested self "series_a" _ _ eq_refl He3) in Hinv.
  - split.
    + unfold calculate_portfolio_returns in E.
      apply bind_raise in E. destruct E as [E|(df & _ & E)]; [|discriminate].
      apply for_each_raise in E. destruct E as (cat & Hin & Hcat).
      exact (category_row_raise _ _ _ _ _ H4 H5 Hin Hcat).
    + destruct (Qeq_dec (allocation (seed (investment_params self))) 0) as [|Hs];
        [tauto|].
      destruct (Qeq_dec (allocation (shared_safe (investment_params self))) 0) as [|Hf];
        [tauto|].
      destruct (Qeq_dec (allocation (series_a (investment_params self))) 0) as [|Ha];
        [tauto|].
      destruct (Qeq_dec (total_deployable self) 0) as [|Hd]; [tauto|].
      destruct (calculate_portfolio_returns_defined self m4 m5 Hs Hf Ha Hd H4 H5)
        as (table & Ht).
      congruence.
Qed.

Lemma X5_portfolio_returns_outcome_witness :
  (exists table, calculate_portfolio_returns (init 50) = Ok table) /\
  calculate_portfolio_returns (configure request_zero_safe) = Raise ZeroDivisionError.
Proof.
  split.
  - pose proof (X5_portfolio_returns_outcome (init 50) 3.0 5.0 eq_refl eq_refl) as H.
    destruct (calculate_portfolio_returns (init 50)) as [table|e].
    + eauto.
    + exfalso. destruct H as (_ & [H|[H|[H|H]]]); revert H; vm_compute; discriminate.
  - pose proof (X5_portfolio_returns_outcome (configure request_zero_safe) 3.0 5.0
                  eq_refl eq_refl) as H.
    destruct (calculate_portfolio_returns (configure request_zero_safe)) as [table|e].
    + exfalso. destruct H as (_ & H & _). apply H. vm_compute. reflexivity.
    + destruct H as (-> & _). reflexivity.
Defined.

(** ** Portfolio returns: what the table reads *)

Lemma init_total_deployable (fs : Q) :
  total_deployable (init fs) == (8 # 10) * fs + 5.
Proof.
  unfold init. cbn [total_deployable].
  change (inject_Z 10) with 10. ring.
Qed.

Lemma calculate_equity_returns_reads (self other : Model) (key : string) :
  investment_params self = investment_params other ->
  power_law_seed self = power_law_seed other ->
  power_law_series_a self = power_law_series_a other ->
  calculate_equity_returns self key = calculate_equity_returns other key.
Proof.
  intros Hip Hs Ha. unfold calculate_equity_returns, distribution_of.
  now rewrite Hip, Hs, Ha.
Qed.

Lemma calculate_revenue_share_returns_reads (self other : Model) :
  investment_params self = investment_params other ->
  calculate_revenue_share_returns self = calculate_revenue_share_returns other.
Proof.
  intro Hip. unfold calculate_revenue_share_returns. now rewrite Hip.
Qed.

Ltac same_result :=
  repeat match goal with
         | H : ?x = Ok ?a, H' : ?x = Ok ?b |- _ =>
             rewrite H in H'; injection H' as <-
         end.

(** A pass of the loop reads the scalars of the model for the percentage
    only. *)
Lemma category_row_columns (self other : Model)
    (cat : string * string * option string) (r1 r2 : PortfolioRow.t) :
  investment_params self = investment_params other ->
  power_law_seed self = power_law_seed other ->
  power_law_series_a self = power_law_series_a other ->
  category_row self cat = Ok r1 ->
  category_row other cat = Ok r2 ->
  PortfolioRow.Category r1 = PortfolioRow.Category r2 /\
  PortfolioRow.Invested r1 = PortfolioRow.Invested r2 /\
  PortfolioRow.Gross_Return r1 = PortfolioRow.Gross_Return r2 /\
  PortfolioRow.MOIC r1 = PortfolioRow.MOIC r2.
Proof.
  intros Hip Hs Ha. destruct cat as [[name key] calc_type].
  unfold category_row.
  rewrite (calculate_revenue_share_returns_reads self other Hip),
    (calculate_equity_returns_reads self other key Hip Hs Ha), Hip.
  destruct (calc_type_is calc_type "revenue_share");
    [|destruct (calc_type_is calc_type "fixed")];
    intros H1 H2; repeat bind_inv H1; repeat bind_inv H2;
    injection H1 as <-; injection H2 as <-; same_result;
    repeat split; reflexivity.
Qed.

(** X9. The portfolio table reads the fund size, the fee rate and the other
    scalars of the model for the percent-of-portfolio column only. Two models
    with the same investment_params and outcome buckets, such as two freshly
    constructed models of different fund sizes, get tables with the same
    categories, invested values, gross returns and MOICs, row by row, the
    total row included: the constructor's portfolio does not scale with the
    fund. *)
Theorem X9_fund_size_moves_percentages_only (self other : Model)
    (t1 t2 : PortfolioTable) :
  investment_params self = investment_params other ->
  power_law_seed self = power_law_seed other ->
  power_law_series_a self = power_law_series_a other ->
  calculate_portfolio_returns self = Ok t1 ->
  calculate_portfolio_returns other = Ok t2 ->
  map PortfolioRow.Category t1 = map PortfolioRow.Category t2 /\
  map PortfolioRow.Invested t1 = map PortfolioRow.Invested t2 /\
  map PortfolioRow.Gross_Return t1 = map PortfolioRow.Gross_Return t2 /\
  map PortfolioRow.MOIC t1 = map PortfolioRow.MOIC t2.
Proof.
  intros Hip Hs Ha E1 E2.
  destruct (calculate_portfolio_returns_rows _ _ E1)
    as (a1 & a2 & a3 & a4 & a5 & -> & A1 & A2 & A3 & A4 & A5).
  destruct (calculate_portfolio_returns_rows _ _ E2)
    as (b1 & b2 & b3 & b4 & b5 & -> & B1 & B2 & B3 & B4 & B5).
  destruct (category_row_columns _ _ _ _ _ Hip Hs Ha A1 B1) as (C1 & I1 & G1 & M1).
  destruct (category_row_columns _ _ _ _ _ Hip Hs Ha A2 B2) as (C2 & I2 & G2 & M2).
  destruct (category_row_columns _ _ _ _ _ Hip Hs Ha A3 B3) as (C3 & I3 & G3 & M3).
  destruct (category_row_columns _ _ _ _ _ Hip Hs Ha A4 B4) as (C4 & I4 & G4 & M4).
  destruct (category_row_columns _ _ _ _ _ Hip Hs Ha A5 B5) as (C5 & I5 & G5 & M5).
  unfold total_row.
  cbn [map PortfolioRow.Category PortfolioRow.Invested PortfolioRow.Gross_Return
       PortfolioRow.MOIC].
  rewrite C1, C2, C3, C4, C5, I1, I2, I3, I4, I5, G1, G2, G3, G4, G5,
    M1, M2, M3, M4, M5.
  repeat split; reflexivity.
Qed.

Lemma X9_fund_size_moves_percentages_only_witness :
  exists t1 t2,
    calculate_portfolio_returns (init 50) = Ok t1 /\
    calculate_portfolio_returns (init 100) = Ok t2 /\
    map PortfolioRow.Invested t1 = map PortfolioRow.Invested t2 /\
    map PortfolioRow.Gross_Return t1 = map PortfolioRow.Gross_Return t2 /\
    map PortfolioRow.MOIC t1 = map PortfolioRow.MOIC t2 /\
    ~ nth 0 (map PortfolioRow.Pct_of_Portfolio t1) 0
      == nth 0 (map PortfolioRow.Pct_of_Portfolio t2) 0.
Proof.
  eassert (E1 : calculate_portfolio_returns (init 50) = Ok _)
    by (vm_compute; reflexivity).
  eassert (E2 : calculate_portfolio_returns (init 100) = Ok _)
    by (vm_compute; reflexivity).
  destruct (X9_fund_size_moves_percentages_only (init 50) (init 100) _ _
              eq_refl eq_refl eq_refl E1 E2) as (_ & HI & HG & HM).
  eexists. eexists. split; [exact E1|]. split; [exact E2|].
  split; [exact HI|]. split; [exact HG|]. split; [exact HM|].
  vm_compute. discriminate.
Defined.

(** X10. The rows that [create_visualizations] charts are the table
    without its total row: exactly the five category rows, in order, and
    their invested values add up to the invested value of the total row. *)
Theorem X10_chart_rows_are_the_categories (self : Model) (table : PortfolioTable) :
  calculate_portfolio_returns self = Ok table ->
  portfolio_data table = removelast table /\
  map PortfolioRow.Category (portfolio_data table) =
    ["Seed"; "Shared SAFE"; "Series A"; "Incubation"; "Recycled"]%string /\
  exists total,
    total_portfolio_row table = Some total /\
    Qsum (map PortfolioRow.Invested (portfolio_data table))
    = PortfolioRow.Invested total.
Proof.
  intro H.
  destruct (calculate_portfolio_returns_rows _ _ H)
    as (r1 & r2 & r3 & r4 & r5 & -> & R1 & R2 & R3 & R4 & R5).
  pose proof (category_row_name _ _ _ _ _ R1) as N1.
  pose proof (category_row_name _ _ _ _ _ R2) as N2.
  pose proof (category_row_name _ _ _ _ _ R3) as N3.
  pose proof (category_row_name _ _ _ _ _ R4) as N4.
  pose proof (category_row_name _ _ _ _ _ R5) as N5.
  assert (Hdata : portfolio_data [r1; r2; r3; r4; r5; total_row [r1; r2; r3; r4; r5]]
                  = [r1; r2; r3; r4; r5]).
  { unfold portfolio_data. cbn [filter]. rewrite N1, N2, N3, N4, N5. reflexivity. }
  rewrite Hdata. split; [reflexivity|].
  split; [cbn [map]; now rewrite N1, N2, N3, N4, N5|].
  exists (total_row [r1; r2; r3; r4; r5]). split; [|reflexivity].
  unfold total_portfolio_row. cbn [filter]. rewrite N1, N2, N3, N4, N5. reflexivity.
Qed.

Lemma X10_chart_rows_are_the_categories_witness :
  exists table,
    calculate_portfolio_returns (init 50) = Ok table /\
    List.length (portfolio_data table) = 5%nat /\
    Qsum (map PortfolioRow.Invested (portfolio_data table)) == 45.
Proof.
  eassert (Et : calculate_portfolio_returns (init 50) = Ok _)
    by (vm_compute; reflexivity).
  destruct (X10_chart_rows_are_the_categories (init 50) _ Et)
    as (Hdata & Hnames & total & Htot & Hsum).
  eexists. split; [exact Et|]. split.
  - rewrite <- (length_map PortfolioRow.Category), Hnames. reflexivity.
  - vm_compute. reflexivity.
Defined.

(** ** Cash flows: when the schedule is built and what it keeps *)

(** X11. [calculate_cash_flows] returns a schedule exactly when fund_life is
    10 and the shared_safe allocation is not zero. With a zero allocation it
    raises ZeroDivisionError; otherwise, for any other fund_life, the ten
    equity exits do not fit the frame and it raises the length mismatch of 10
    values against an index of max(fund_life, 5) rows. *)
Theorem X11_cash_flows_outcome (self : Model) :
  match calculate_cash_flows self with
  | Ok schedule =>
      fund_life self = 10%Z /\
      ~ allocation (shared_safe (investment_params self)) == 0 /\
      List.length (CashFlows.Year schedule) = 10%nat
  | Raise e =>
      (allocation (shared_safe (investment_params self)) == 0 /\
       e = ZeroDivisionError) \/
      (~ allocation (shared_safe (investment_params self)) == 0 /\
       fund_life self <> 10%Z /\
       e = ValueError 10 (Nat.max (Z.to_nat (fund_life self)) 5))
  end.
Proof.
  destruct (Qeq_dec (allocation (shared_safe (investment_params self))) 0) as [Hz|Hnz].
  - unfold calculate_cash_flows, calculate_revenue_share_returns.
    rewrite (py_div_zero _ _ Hz). cbn [bind]. left. split; [exact Hz | reflexivity].
  - destruct (Z.eq_dec (fund_life self) 10) as [Hlife|Hlife].
    + rewrite (calculate_cash_flows_life_10 _ Hlife).
      unfold calculate_revenue_share_returns.
      rewrite (py_div_nonzero _ _ Hnz). cbn [bind].
      repeat split; assumption.
    + rewrite (calculate_cash_flows_short_life _ Hlife Hnz).
      right. repeat split; assumption.
Qed.

(** The schedule of a ten-year fund, spelled out. *)
Lemma schedule_closed_form (self : Model) (schedule : CashFlows.t) :
  calculate_cash_flows self = Ok schedule ->
  exists r,
    calculate_revenue_share_returns self = Ok r /\
    schedule =
    derive_metrics (fund_size self) years_10 (capital_calls_10 (fund_size self))
      (revenue_share_10 (RevenueShare.cash_flow_schedule r)) equity_exits.
Proof.
  intro H. pose proof (calculate_cash_flows_ok_life _ _ H) as Hlife.
  rewrite (calculate_cash_flows_life_10 _ Hlife) in H.
  apply bind_ok in H. destruct H as (r & Hr & H). injection H as <-.
  exists r. split; [exact Hr | reflexivity].
Qed.

Lemma nth_error_map2 {A B C : Type} (f : A -> B -> C) (xs : list A) (ys : list B)
    (t : nat) :
  nth_error (map2 f xs ys) t =
  match nth_error xs t, nth_error ys t with
  | Some x, Some y => Some (f x y)
  | _, _ => None
  end.
Proof.
  revert ys t. induction xs as [|x xs IH]; intros [|y ys] [|t]; simpl;
    try reflexivity.
  - destruct (nth_error xs t); reflexivity.
  - apply IH.
Qed.

(** With non-negative distributions carry due never decreases and starts at
    zero or above. *)
Lemma derive_metrics_carry_steps (fs : Q) (year cc rs ee : list Q) :
  Forall (fun x => 0 <= x) (map2 Qplus rs ee) ->
  non_decreasing (0 :: CashFlows.Carry_Due (derive_metrics fs year cc rs ee)).
Proof.
  unfold derive_metrics. cbn [CashFlows.Carry_Due].
  generalize (map2 Qplus rs ee). intros td Hnn.
  assert (Hcd : non_decreasing
                  (map (fun x => py_max 0 (x * 0.20))
                       (map (fun x => x - fs) (cumsum td)))).
  { apply non_decreasing_map.
    - intros a b Hab. apply py_max_0_mono. lra.
    - apply non_decreasing_map; [intros a b Hab; lra|].
      now apply cumsum_non_decreasing. }
  intros t a b Ht HSt. destruct t as [|t].
  - injection Ht as <-.
    change (nth_error (map (fun x => py_max 0 (x * 0.20))
                           (map (fun x => x - fs) (cumsum td))) 0 = Some b) in HSt.
    rewrite nth_error_map in HSt.
    destruct (nth_error _ 0) as [g|]; [|discriminate].
    cbn [option_map] in HSt. injection HSt as <-. apply py_max_0_nonneg.
  - exact (Hcd t a b Ht HSt).
Qed.

Lemma derive_metrics_net_le (fs : Q) (year cc rs ee : list Q) (t : nat) (n d : Q) :
  non_decreasing (0 :: CashFlows.Carry_Due (derive_metrics fs year cc rs ee)) ->
  nth_error (CashFlows.Net_to_LPs (derive_metrics fs year cc rs ee)) t = Some n ->
  nth_error (CashFlows.Total_Distribution (derive_metrics fs year cc rs ee)) t = Some d ->
  n <= d.
Proof.
  unfold derive_metrics.
  cbn [CashFlows.Carry_Due CashFlows.Net_to_LPs CashFlows.Total_Distribution].
  generalize (map2 Qplus rs ee). intro td.
  generalize (map (fun x => py_max 0 (x * 0.20))
                  (map (fun x => x - fs) (cumsum td))).
  intros cd Hsteps Hn Hd.
  rewrite nth_error_map2, Hd, nth_error_map2 in Hn.
  destruct (nth_error cd t) as [c|] eqn:Ec; [|discriminate].
  unfold shift_fillna0 in Hn. rewrite nth_error_firstn in Hn.
  destruct (Nat.ltb t (List.length cd)); [|discriminate].
  destruct (nth_error (0 :: cd) t) as [p|] eqn:Ep; [|discriminate].
  injection Hn as <-.
  assert (Hpc : p <= c) by exact (Hsteps t p c Ep Ec).
  lra.
Qed.

Lemma derive_metrics_carry_nonneg (fs : Q) (year cc rs ee : list Q) (t : nat) (c : Q) :
  nth_error (CashFlows.Carry_Due (derive_metrics fs year cc rs ee)) t = Some c ->
  0 <= c.
Proof.
  unfold derive_metrics. cbn [CashFlows.Carry_Due].
  rewrite nth_error_map.
  destruct (nth_error _ t) as [g|]; [|discriminate].
  cbn [option_map]. intro H. injection H as <-. apply py_max_0_nonneg.
Qed.

(** X14. With a non-negative shared_safe allocation, carry is never given
    back: every year carry due is zero or more and the LPs receive at most
    that year's total distribution. *)
Theorem X14_no_claw_back (self : Model) (schedule : CashFlows.t) :
  0 <= allocation (shared_safe (investment_params self)) ->
  calculate_cash_flows self = Ok schedule ->
  forall t,
    (forall c, nth_error (CashFlows.Carry_Due schedule) t = Some c -> 0 <= c) /\
    (forall n d,
       nth_error (CashFlows.Net_to_LPs schedule) t = Some n ->
       nth_error (CashFlows.Total_Distribution schedule) t = Some d ->
       n <= d).
Proof.
  intros Ha H t.
  destruct (schedule_closed_form _ _ H) as (r & Hr & ->).
  pose proof (total_distribution_nonneg _ _ Ha Hr) as Hnn.
  split.
  - intro c. apply derive_metrics_carry_nonneg.
  - intros n d. apply derive_metrics_net_le.
    now apply derive_metrics_carry_steps.
Qed.

Lemma X14_no_claw_back_witness :
  exists schedule,
    calculate_cash_flows (init 50) = Ok schedule /\
    nth_error (CashFlows.Total_Distribution schedule) 5 = Some 21.8 /\
    forall n, nth_error (CashFlows.Net_to_LPs schedule) 5 = Some n -> n <= 21.8.
Proof.
  eassert (Es : calculate_cash_flows (init 50) = Ok _)
    by (vm_compute; reflexivity).
  eexists. split; [exact Es|]. split; [reflexivity|].
  intros n Hn.
  refine (proj2 (X14_no_claw_back (init 50) _ _ Es 5) n 21.8 Hn eq_refl).
  vm_compute. discriminate.
Defined.

(** X16. The schedule depends on the model through fund_size, fund_life and
    the shared_safe allocation only: two models that agree on these three
    get the same outcome, whatever their fee rate, carried-interest rate,
    other allocations or outcome buckets. *)
Theorem X16_cash_flows_read_three_values (self other : Model) :
  fund_size self = fund_size other ->
  fund_life self = fund_life other ->
  allocation (shared_safe (investment_params self))
  = allocation (shared_safe (investment_params other)) ->
  calculate_cash_flows self = calculate_cash_flows other.
Proof.
  intros Hsize Hlife Halloc.
  unfold calculate_cash_flows, calculate_revenue_share_returns, fill_frame.
  rewrite Hsize, Hlife, Halloc. reflexivity.
Qed.

Lemma X16_cash_flows_read_three_values_witness :
  carried_interest_rate (configure request_zero_carry)
  <> carried_interest_rate (init 50.0) /\
  calculate_cash_flows (configure request_zero_carry)
  = calculate_cash_flows (init 50.0).
Proof.
  split; [vm_compute; discriminate|].
  apply X16_cash_flows_read_three_values; reflexivity.
Defined.

Lemma derive_metrics_carry_dpi (fs : Q) (year cc rs ee : list Q) (t : nat) (c d : Q) :
  0 < fs ->
  nth_error (CashFlows.Carry_Due (derive_metrics fs year cc rs ee)) t = Some c ->
  nth_error (CashFlows.DPI (derive_metrics fs year cc rs ee)) t = Some d ->
  (0 < c <-> 1 < d).
Proof.
  unfold derive_metrics. cbn [CashFlows.Carry_Due CashFlows.DPI].
  generalize (cumsum (map2 Qplus rs ee)). intros cums Hfs Hc Hd.
  rewrite !nth_error_map in Hc. rewrite nth_error_map in Hd.
  destruct (nth_error cums t) as [cum|]; [|discriminate].
  cbn [option_map] in Hc, Hd. injection Hc as <-. injection Hd as <-.
  assert (Hdiv : cum / fs * fs == cum) by (field; lra).
  unfold py_max. split; intro Hlt.
  - destruct (Qltb 0 ((cum - fs) * 0.20)) eqn:E; [|lra].
    apply Qltb_lt in E.
    assert (H1 : 1 * fs < cum / fs * fs) by (rewrite Hdiv; lra).
    apply Qmult_lt_r in H1; assumption.
  - assert (H1 : 1 * fs < cum / fs * fs) by (apply Qmult_lt_r; assumption).
    rewrite Hdiv in H1.
    destruct (Qltb 0 ((cum - fs) * 0.20)) eqn:E.
    + apply Qltb_lt in E. exact E.
    + apply Qltb_ge in E. lra.
Qed.

(** X17. For a positive fund size, carry is due in exactly the years whose
    DPI is above 1: a year's carry due is positive if and only if its DPI
    exceeds 1. *)
Theorem X17_carry_starts_above_dpi_one (self : Model) (schedule : CashFlows.t)
    (t : nat) (c d : Q) :
  0 < fund_size self ->
  calculate_cash_flows self = Ok schedule ->
  nth_error (CashFlows.Carry_Due schedule) t = Some c ->
  nth_error (CashFlows.DPI schedule) t = Some d ->
  (0 < c <-> 1 < d).
Proof.
  intros Hfs H.
  destruct (schedule_closed_form _ _ H) as (r & _ & ->).
  now apply derive_metrics_carry_dpi.
Qed.

Lemma X17_carry_starts_above_dpi_one_witness :
  exists schedule,
    calculate_cash_flows (init 50) = Ok schedule /\
    (forall c d,
       nth_error (CashFlows.Carry_Due schedule) 3 = Some c ->
       nth_error (CashFlows.DPI schedule) 3 = Some d -> ~ 0 < c /\ ~ 1 < d) /\
    (forall c d,
       nth_error (CashFlows.Carry_Due schedule) 4 = Some c ->
       nth_error (CashFlows.DPI schedule) 4 = Some d -> 0 < c /\ 1 < d).
Proof.
  eassert (Es : calculate_cash_flows (init 50) = Ok _)
    by (vm_compute; reflexivity).
  assert (Hfs : 0 < fund_size (init 50)) by (vm_compute; reflexivity).
  eexists. split; [exact Es|]. split; intros c d Hc Hd.
  - pose proof (X17_carry_starts_above_dpi_one (init 50) _ 3 c d Hfs Es Hc Hd) as Hiff.
    assert (Hn : ~ 0 < c)
      by (simpl in Hc; injection Hc as <-; vm_compute; discriminate).
    split; [exact Hn | intro H1; apply Hn, Hiff, H1].
  - pose proof (X17_carry_starts_above_dpi_one (init 50) _ 4 c d Hfs Es Hc Hd) as Hiff.
    assert (Hp : 0 < c)
      by (simpl in Hc; injection Hc as <-; vm_compute; reflexivity).
    split; [exact Hp | apply Hiff, Hp].
Defined.

(** ** LP returns: the total row *)

(** X18. On a table that has rows, none of them a "Total Portfolio" row,
    [calculate_lp_returns] raises IndexError, from [.values[0]] on an empty
    selection, before anything else is computed, whatever the model, and
    [sensitivity_analysis] raises it too. *)
Theorem X18_missing_total_row (npf_irr : list Q -> result cell)
    (pow : Q -> Q -> cell) (self : Model) (table : PortfolioTable) :
  table <> [] ->
  total_portfolio_row table = None ->
  calculate_lp_returns npf_irr self table = Raise IndexError /\
  sensitivity_analysis npf_irr pow self table = Raise IndexError.
Proof.
  intros _ H.
  assert (Hg : total_portfolio_gross_return table = Raise IndexError).
  { unfold total_portfolio_row in H. unfold total_portfolio_gross_return.
    destruct (filter _ table); [reflexivity | discriminate]. }
  assert (Hlp : calculate_lp_returns npf_irr self table = Raise IndexError)
    by (unfold calculate_lp_returns; now rewrite Hg).
  split; [exact Hlp|].
  unfold sensitivity_analysis. now rewrite Hlp.
Qed.

Lemma X18_missing_total_row_witness :
  exists table,
    calculate_portfolio_returns (init 50) = Ok table /\
    List.length (portfolio_data table) = 5%nat /\
    calculate_lp_returns irr_reference (init 50) (portfolio_data table)
    = Raise IndexError /\
    sensitivity_analysis irr_reference pow_reference (configure request_short_life)
                         (portfolio_data table)
    = Raise IndexError.
Proof.
  eassert (Et : calculate_portfolio_returns (init 50) = Ok _)
    by (vm_compute; reflexivity).
  eexists. split; [exact Et|]. split; [reflexivity|]. split.
  - apply (X18_missing_total_row irr_reference pow_reference);
      [discriminate | reflexivity].
  - apply (X18_missing_total_row irr_reference pow_reference);
      [discriminate | reflexivity].
Defined.


(** ** Sensitivity: what the table depends on *)

(** X21. The sensitivity table never depends on the IRR routine: its IRR
    column comes from the power formula, and whatever the routine returns or
    raises inside [calculate_lp_returns] leaves the table, or the exception
    raised, the same. *)
Theorem X21_sensitivity_ignores_irr_routine (irr1 irr2 : list Q -> result cell)
    (pow : Q -> Q -> cell) (self : Model) (table : PortfolioTable) :
  sensitivity_analysis irr1 pow self table
  = sensitivity_analysis irr2 pow self table.
Proof.
  unfold sensitivity_analysis.
  destruct (total_portfolio_gross_return table) as [g|e] eqn:Hg;
    [|unfold calculate_lp_returns; rewrite Hg; reflexivity].
  destruct (calculate_cash_flows self) as [schedule|e] eqn:Hs;
    [|unfold calculate_lp_returns; rewrite Hg, Hs; reflexivity].
  rewrite (calculate_lp_returns_eq irr1 _ _ _ _ Hg Hs),
    (calculate_lp_returns_eq irr2 _ _ _ _ Hg Hs).
  reflexivity.
Qed.





(** ** The request: overrides, success and errors *)

Lemma get_update_category (ip : InvestmentParams) (k key : string)
    (u : ParamsUpdate.t) :
  investment_params_get (update_category ip (k, u)) key =
  (p <- investment_params_get ip key ;;
   Ok (if String.eqb key k then update_params u p else p)).
Proof.
  unfold investment_params_get, update_category.
  destruct (String.eqb_spec key "seed") as [->|K1];
  [|destruct (String.eqb_spec key "shared_safe") as [->|K2];
  [|destruct (String.eqb_spec key "series_a") as [->|K3];
  [|destruct (String.eqb_spec key "incubation") as [->|K4];
  [|destruct (String.eqb_spec key "recycled") as [->|K5]]]]];
  (destruct (String.eqb_spec k "seed") as [->|N1];
  [|destruct (String.eqb_spec k "shared_safe") as [->|N2];
  [|destruct (String.eqb_spec k "series_a") as [->|N3];
  [|destruct (String.eqb_spec k "incubation") as [->|N4];
  [|destruct (String.eqb_spec k "recycled") as [->|N5]]]]]);
  cbn [bind seed shared_safe series_a incubation recycled]; try reflexivity.
  all: try (match goal with
            | |- context [String.eqb ?a ?b] =>
                destruct (String.eqb_spec a b); [congruence | reflexivity]
            end).
Qed.

Lemma dict_get_absent {V : Type} (key : string) (d : list (string * V)) :
  ~ In key (map fst d) -> dict_get key d = None.
Proof.
  induction d as [|[k v] d IH]; simpl; intro H; [reflexivity|].
  destruct (String.eqb_spec key k) as [->|Hne].
  - exfalso. apply H. now left.
  - apply IH. intro Hin. apply H. now right.
Qed.

Lemma get_fold_update (updates : list (string * ParamsUpdate.t)) :
  forall (ip : InvestmentParams) (key : string),
    NoDup (map fst updates) ->
    investment_params_get (fold_left update_category updates ip) key =
    (p <- investment_params_get ip key ;;
     Ok (match dict_get key updates with
         | Some u => update_params u p
         | None => p
         end)).
Proof.
  induction updates as [|[k u] rest IH]; intros ip key Hnd; cbn [fold_left].
  - destruct (investment_params_get ip key); reflexivity.
  - rewrite IH by (now inversion Hnd). rewrite get_update_category.
    destruct (investment_params_get ip key) as [p|e]; cbn [bind]; [|reflexivity].
    cbn [dict_get]. destruct (String.eqb_spec key k) as [->|Hne]; [|reflexivity].
    rewrite dict_get_absent; [reflexivity|].
    simpl in Hnd. now inversion Hnd.
Qed.

(** X24. The overrides of a request are merged key by key. With distinct
    category names in the request, a category of the configured model is the
    default one with the named keys overwritten and the others kept, or the
    default one when the request does not name it; a name outside the five
    categories changes nothing, and no category is added. *)
Theorem X24_overrides_merge_key_by_key (data : Request.t) (key : string) :
  NoDup (map fst (or_else (Request.investment_params data) [])) ->
  investment_params_get (investment_params (configure data)) key =
  (p <- investment_params_get default_investment_params key ;;
   Ok (match dict_get key (or_else (Request.investment_params data) []) with
       | Some u => update_params u p
       | None => p
       end)).
Proof.
  intro Hnd. unfold configure. cbn [investment_params].
  now apply get_fold_update.
Qed.

Lemma X24_overrides_merge_key_by_key_witness :
  let data := allocation_request
                [ ("seed"%string, allocation_update 20);
                  ("growth"%string, allocation_update 9) ] in
  (exists p, investment_params_get (investment_params (configure data)) "seed" = Ok p /\
             allocation p = 20 /\ count p = 10) /\
  investment_params_get (investment_params (configure data)) "series_a"
  = Ok (series_a default_investment_params) /\
  investment_params_get (investment_params (configure data)) "growth"
  = Raise (KeyError "growth").
Proof.
  intro data.
  assert (Hnd : NoDup (map fst (or_else (Request.investment_params data) [])))
    by (cbn; repeat constructor; simpl; intuition discriminate).
  split; [|split].
  - rewrite (X24_overrides_merge_key_by_key data "seed" Hnd).
    eexists. split; [reflexivity|]. split; reflexivity.
  - rewrite (X24_overrides_merge_key_by_key data "series_a" Hnd). reflexivity.
  - rewrite (X24_overrides_merge_key_by_key data "growth" Hnd). reflexivity.
Defined.



(** The four calculations go through once the portfolio table is there and
    the fund life is 10. *)
Lemma run_calculations_defined (npf_irr : list Q -> result cell)
    (pow : Q -> Q -> cell) (self : Model) (table : PortfolioTable) :
  calculate_portfolio_returns self = Ok table ->
  fund_life self = 10%Z ->
  exists body, run_calculations npf_irr pow self = Ok body.
Proof.
  intros Et Hlife.
  destruct (calculate_portfolio_returns_total _ _ Et) as (total & Htot & _).
  destruct (calculate_portfolio_returns_rows _ _ Et)
    as (r1 & r2 & r3 & r4 & r5 & _ & _ & H2 & _).
  apply category_row_safe_allocation in H2.
  destruct (calculate_cash_flows_defined _ Hlife H2) as (schedule & Hs).
  pose proof (total_portfolio_gross_return_row _ _ Htot) as Hg.
  unfold run_calculations, sensitivity_analysis.
  rewrite Et. cbn [bind].
  rewrite (calculate_lp_returns_eq npf_irr _ _ _ _ Hg Hs). cbn [bind].
  rewrite Hs. cbn [bind]. eauto.
Qed.

Lemma run_calculations_parts (npf_irr : list Q -> result cell)
    (pow : Q -> Q -> cell) (self : Model) (body : Response.t) :
  run_calculations npf_irr pow self = Ok body ->
  Response.model body = self /\
  calculate_portfolio_returns self = Ok (Response.portfolio_returns body) /\
  calculate_lp_returns npf_irr self (Response.portfolio_returns body)
  = Ok (Response.lp_returns body) /\
  calculate_cash_flows self = Ok (Response.cash_flows body) /\
  sensitivity_analysis npf_irr pow self (Response.portfolio_returns body)
  = Ok (Response.sensitivity_analysis body).
Proof.
  unfold run_calculations. intro H.
  apply bind_ok in H. destruct H as (table & Et & H).
  apply bind_ok in H. destruct H as (lp & Hlp & H).
  apply bind_ok in H. destruct H as (schedule & Hs & H).
  apply bind_ok in H. destruct H as (st & Hst & H).
  injection H as <-. cbn. repeat split; assumption.
Qed.

(** X25. A request is answered with status 200 exactly when the configured
    fund life is 10 and the portfolio table can be computed; the answer then
    holds the results of the four calculations on the configured model. *)
Theorem X25_request_succeeds_iff (npf_irr : list Q -> result cell)
    (pow : Q -> Q -> cell) (data : Request.t) :
  ((exists body, run_model npf_irr pow data = Http200 body) <->
   (fund_life (configure data) = 10%Z /\
    exists table, calculate_portfolio_returns (configure data) = Ok table)) /\
  (forall body,
     run_model npf_irr pow data = Http200 body ->
     Response.model body = configure data /\
     calculate_portfolio_returns (configure data)
     = Ok (Response.portfolio_returns body) /\
     calculate_lp_returns npf_irr (configure data) (Response.portfolio_returns body)
     = Ok (Response.lp_returns body) /\
     calculate_cash_flows (configure data) = Ok (Response.cash_flows body) /\
     sensitivity_analysis npf_irr pow (configure data) (Response.portfolio_returns body)
     = Ok (Response.sensitivity_analysis body)).
Proof.
  assert (Hparts : forall body,
             run_model npf_irr pow data = Http200 body ->
             run_calculations npf_irr pow (configure data) = Ok body).
  { intros body H. unfold run_model in H.
    destruct (run_calculations npf_irr pow (configure data)); [|discriminate].
    now injection H as <-. }
  split; [split|].
  - intros (body & H). apply Hparts in H.
    destruct (run_calculations_parts _ _ _ _ H) as (_ & Et & Hlp & _).
    split; [|eauto].
    exact (proj1 (calculate_lp_returns_fields _ _ _ _ Hlp)).
  - intros (Hlife & table & Et).
    destruct (run_calculations_defined npf_irr pow _ _ Et Hlife) as (body & Hb).
    exists body. unfold run_model. now rewrite Hb.
  - intros body H. apply Hparts in H.
    exact (run_calculations_parts _ _ _ _ H).
Qed.



Lemma init_portfolio_outcome (fs : Q) :
  (fs == -6.25 ->
   calculate_portfolio_returns (init fs) = Raise ZeroDivisionError) /\
  (~ fs == -6.25 -> exists table, calculate_portfolio_returns (init fs) = Ok table).
Proof.
  pose proof (init_total_deployable fs) as Hdep.
  split; intro Hfs.
  - assert (Hz : total_deployable (init fs) == 0) by (rewrite Hdep, Hfs; reflexivity).
    destruct (calculate_portfolio_returns (init fs)) as [table|e] eqn:E.
    + exfalso.
      destruct (calculate_portfolio_returns_rows _ _ E)
        as (r1 & r2 & r3 & r4 & r5 & _ & R1 & _).
      destruct (category_row_shape _ _ _ R1) as (Hnz & _). contradiction.
    + f_equal. unfold calculate_portfolio_returns in E.
      apply bind_raise in E. destruct E as [E|(df & _ & E)]; [|discriminate].
      apply for_each_raise in E. destruct E as (cat & Hin & Hcat).
      exact (category_row_raise (init fs) cat 3.0 5.0 e eq_refl eq_refl Hin Hcat).
  - assert (Hnz : ~ total_deployable (init fs) == 0).
    { rewrite Hdep. intro H. apply Hfs.
      assert (Hv : fs == - (5 / (8 # 10))) by (field_simplify_eq; lra).
      rewrite Hv. reflexivity. }
    apply (calculate_portfolio_returns_defined (init fs) 3.0 5.0);
      try reflexivity; try exact Hnz; cbn; discriminate.
Qed.

(** X27. A request that sets only the fund size passes the four
    calculations for every value, negative ones included, except -6.25: there
    total_deployable is zero and the answer is status 400 with
    ZeroDivisionError. *)
Theorem X27_any_fund_size_but_one (npf_irr : list Q -> result cell)
    (pow : Q -> Q -> cell) (fs : Q) :
  (fs == -6.25 ->
   run_model npf_irr pow (fund_size_request fs) = Http400 ZeroDivisionError) /\
  (~ fs == -6.25 ->
   exists body, run_model npf_irr pow (fund_size_request fs) = Http200 body).
Proof.
  change (run_model npf_irr pow (fund_size_request fs))
    with (match run_calculations npf_irr pow (init fs) with
          | Ok body => Http200 body
          | Raise e => Http400 e
          end).
  destruct (init_portfolio_outcome fs) as (Hbad & Hgood).
  split; intro Hfs.
  - unfold run_calculations. rewrite (Hbad Hfs). reflexivity.
  - destruct (Hgood Hfs) as (table & Et).
    destruct (run_calculations_defined npf_irr pow _ _ Et eq_refl) as (body & Hb).
    exists body. now rewrite Hb.
Qed.

Lemma X27_any_fund_size_but_one_witness :
  run_model irr_reference pow_reference (fund_size_request (-6.25))
  = Http400 ZeroDivisionError /\
  (exists body, run_model irr_reference pow_reference (fund_size_request 100)
                = Http200 body).
Proof.
  split.
  - apply X27_any_fund_size_but_one. reflexivity.
  - apply X27_any_fund_size_but_one. vm_compute. discriminate.
Defined.
